(** * manage_databricks_job.py: a shallow embedding and its reconciliation properties

    The script [.github/scripts/manage_databricks_job.py] creates, updates or
    skips a Databricks job by shelling out to the [databricks] command line
    tool.  This development embeds the script as executable Rocq functions in
    a small state-and-exception monad and proves the properties of its
    create / update / skip decision.

    What is modelled, and how:
    - JSON documents as the values [json.loads] produces ([json]); JSON
      numbers are integers here, numbers with a fraction or an exponent are
      outside the model;
    - a text, as far as the script observes it, by what [json.loads] makes of
      it ([doc]);
    - the file system as a finite map from paths to texts, the process
      environment as a finite map from names to strings;
    - the [databricks] tool as a function from the command line (and the
      files present) to an exit status, the two output streams and the files
      it leaves behind ([bridge]);
    - [print] and [subprocess.run] as events appended to a log;
    - Python exceptions, of which [SystemExit] is not an [Exception]. *)

From stdpp Require Import gmap strings list pretty.
From Stdlib Require Import ZArith Ascii String.

Set Warnings "-register-all".
Local Open Scope Z_scope.
Local Open Scope string_scope.
Local Open Scope list_scope.

(** ** JSON values as Python objects *)

(** [JNull] is Python's [None]; a [JObj] is a [dict] in insertion order, whose
    keys are pairwise different (as in every [dict]). *)
Inductive json : Type :=
  | JNull
  | JBool (b : bool)
  | JInt (n : Z)
  | JStr (s : string)
  | JList (l : list json)
  | JObj (kvs : list (string * json)).

(** Python truthiness: [bool(v)]. *)
Definition truthy (v : json) : bool :=
  match v with
  | JNull => false
  | JBool b => b
  | JInt n => negb (n =? 0)%Z
  | JStr s => negb (String.eqb s "")
  | JList l => match l with [] => false | _ => true end
  | JObj kvs => match kvs with [] => false | _ => true end
  end.

(** Lookup of a key in the items of a [dict]. *)
Fixpoint assoc (k : string) (kvs : list (string * json)) : option json :=
  match kvs with
  | [] => None
  | (k', v) :: rest => if String.eqb k k' then Some v else assoc k rest
  end.

(** Python's [==] on these values: [bool] is a subclass of [int]
    ([True == 1]), lists compare element by element, dicts compare as
    mappings, and values of unrelated types are never equal. *)
Fixpoint py_eq (a b : json) {struct a} : bool :=
  match a, b with
  | JNull, JNull => true
  | JBool x, JBool y => Bool.eqb x y
  | JBool x, JInt y => (Z.b2z x =? y)%Z
  | JInt x, JBool y => (x =? Z.b2z y)%Z
  | JInt x, JInt y => (x =? y)%Z
  | JStr x, JStr y => String.eqb x y
  | JList xs, JList ys =>
      (fix all2 (xs ys : list json) {struct xs} : bool :=
         match xs, ys with
         | [], [] => true
         | x :: xs', y :: ys' => py_eq x y && all2 xs' ys'
         | _, _ => false
         end) xs ys
  | JObj xs, JObj ys =>
      (List.length xs =? List.length ys)%nat &&
      (fix items (xs : list (string * json)) {struct xs} : bool :=
         match xs with
         | [] => true
         | (k, v) :: xs' =>
             match assoc k ys with
             | Some w => py_eq v w && items xs'
             | None => false
             end
         end) xs
  | _, _ => false
  end.

(** *** Formatting: [str(v)], as an f-string field renders it *)

Definition squote : ascii := "039"%char.
Definition dquote : ascii := "034"%char.
Definition backslash : ascii := "092"%char.

Fixpoint contains (c : ascii) (s : string) : bool :=
  match s with
  | EmptyString => false
  | String c' r => Ascii.eqb c c' || contains c r
  end.

Definition hex_digit (n : N) : ascii :=
  match n with
  | 0 => "0" | 1 => "1" | 2 => "2" | 3 => "3" | 4 => "4" | 5 => "5"
  | 6 => "6" | 7 => "7" | 8 => "8" | 9 => "9" | 10 => "a" | 11 => "b"
  | 12 => "c" | 13 => "d" | 14 => "e" | _ => "f"
  end%N%char.

(** One character inside [repr] of a [str]; characters are code points below
    256, of which the C0 and C1 controls, the no-break space and the soft
    hyphen are not printable. *)
Definition repr_char (quote c : ascii) : string :=
  let n := N_of_ascii c in
  if Ascii.eqb c quote || Ascii.eqb c backslash then String backslash (String c "")
  else if (n =? 9)%N then String backslash "t"
  else if (n =? 10)%N then String backslash "n"
  else if (n =? 13)%N then String backslash "r"
  else if (n <? 32)%N || ((127 <=? n)%N && (n <=? 160)%N) || (n =? 173)%N
       then String backslash (String "x" (String (hex_digit (n / 16)) (String (hex_digit (n mod 16)) "")))
  else String c "".

Fixpoint repr_chars (quote : ascii) (s : string) : string :=
  match s with
  | EmptyString => ""
  | String c r => repr_char quote c +:+ repr_chars quote r
  end.

(** [repr] of a [str]: single quotes, unless the text has a single quote and
    no double quote. *)
Definition repr_str (s : string) : string :=
  let quote := if contains squote s && negb (contains dquote s) then dquote else squote in
  String quote (repr_chars quote s +:+ String quote "").

Definition join_comma (parts : list string) : string :=
  match parts with
  | [] => ""
  | p :: ps => fold_left (fun acc q => acc +:+ ", " +:+ q) ps p
  end.

Fixpoint py_repr (v : json) : string :=
  match v with
  | JNull => "None"
  | JBool true => "True"
  | JBool false => "False"
  | JInt n => pretty n
  | JStr s => repr_str s
  | JList l => "[" +:+ join_comma (map py_repr l) +:+ "]"
  | JObj kvs =>
      "{" +:+ join_comma (map (fun kv => repr_str (fst kv) +:+ ": " +:+ py_repr (snd kv)) kvs) +:+ "}"
  end.

Definition py_str (v : json) : string :=
  match v with
  | JStr s => s
  | _ => py_repr v
  end.

(** [s.rstrip("/")]: every trailing slash goes. *)
Fixpoint rstrip_slash (s : string) : string :=
  match s with
  | EmptyString => ""
  | String c r =>
      match rstrip_slash r with
      | EmptyString => if Ascii.eqb c "/" then "" else String c ""
      | r' => String c r'
      end
  end.

(** ** Texts, files, the environment and the command line tool *)

(** What the script can observe of a text: whether it is empty ([Blank]),
    and otherwise whether [json.loads] decodes it, to the value [v]
    ([Encodes v]), or rejects it ([Malformed]). *)
Inductive doc : Type :=
  | Blank
  | Encodes (v : json)
  | Malformed.

(** [subprocess.CompletedProcess], the standard output already stripped. *)
Record completed : Type := Completed {
  returncode : Z;
  stdout : doc;
  stderr : string
}.

(** The surroundings of a run: [os.environ], and the [databricks] tool, which
    answers a command line given the files present and may change them. *)
Record world : Type := World {
  environ : gmap string string;
  bridge : string -> gmap string doc -> completed * gmap string doc
}.

(** ** What the script does: commands and printed lines *)

(** The command lines the script hands to the shell. *)
Inductive command : Type :=
  | JobsConfigure
  | JobsList
  | JobsCreate (config_path : string)
  | JobsReset (job_id : json) (temp_file : string)
  | JobsRunNow (job_id : json).

Definition quoted (s : string) : string := String dquote (s +:+ String dquote "").

Definition cmdline (c : command) : string :=
  match c with
  | JobsConfigure => "databricks jobs configure --version=2.1"
  | JobsList => "databricks jobs list --output JSON"
  | JobsCreate config_path => "databricks jobs create --json-file " +:+ quoted config_path
  | JobsReset job_id temp_file =>
      "databricks jobs reset --job-id " +:+ py_str job_id +:+ " --json-file " +:+ quoted temp_file
  | JobsRunNow job_id => "databricks jobs run-now --job-id " +:+ py_str job_id
  end.

(** Python exceptions the script can meet.  [SystemExit] derives from
    [BaseException] only; the others are [Exception]s. *)
Inductive exc : Type :=
  | SystemExit (code : Z)
  | CalledProcessError (r : completed) (captured : bool)
  | FileNotFoundError
  | JSONDecodeError
  | AttributeError
  | TypeError.

Definition is_Exception (e : exc) : bool :=
  match e with
  | SystemExit _ => false
  | _ => true
  end.

(** One constructor per [print] of the script, with the values its f-string
    interpolates. *)
Inductive message : Type :=
  | CommandFailed (cmd : string)
  | ErrorOutput (stderr : option string)
  | LoadedConfig (config_path : string)
  | ConfigNotFound (config_path : string)
  | InvalidJSON (e : exc)
  | CouldNotCheck (e : exc)
  | CreatingJob
  | JobCreatedId (job_id : json)
  | JobCreated
  | UpdatingJob (job_id : json)
  | JobUpdated (job_id : json)
  | NameNotFound
  | ManagingJob (job_name : json)
  | AlreadyExists (job_id : json)
  | SkippingUpdate
  | DoesNotExist
  | CredentialsMissing
  | ConfiguringApi
  | ApiConfigured
  | CouldNotConfigure
  | Rule
  | RuleAfterBlankLine
  | Title
  | JobUrl (job_url : string)
  | TriggeringRun
  | RunTriggeredId (run_id : json)
  | RunUrl (run_url : string)
  | RunTriggered
  | Completed_ok.

Inductive event : Type :=
  | Ran (c : command)
  | Printed (m : message).

(** ** The monad: state, and a value or a raised exception *)

Record state : Type := State {
  files : gmap string doc;
  log : list event
}.

Inductive result (A : Type) : Type :=
  | Ret (a : A)
  | Raise (e : exc).
Arguments Ret {A} a.
Arguments Raise {A} e.

Definition M (A : Type) : Type := state -> result A * state.

#[export] Instance M_ret : MRet M := fun A a st => (Ret a, st).

#[export] Instance M_bind : MBind M := fun A B k m st =>
  match m st with
  | (Ret a, st') => k a st'
  | (Raise e, st') => (Raise e, st')
  end.

Definition raise {A} (e : exc) : M A := fun st => (Raise e, st).

(** [try: body / except ...: handler]; the handler re-raises what its clauses
    do not name. *)
Definition try_except {A} (body : M A) (handler : exc -> M A) : M A :=
  fun st =>
    match body st with
    | (Ret a, st') => (Ret a, st')
    | (Raise e, st') => handler e st'
    end.

(** [try: body / finally: cleanup]. *)
Definition try_finally {A} (body : M A) (cleanup : M unit) : M A :=
  fun st =>
    match body st with
    | (r, st') =>
        match cleanup st' with
        | (Ret _, st'') => (r, st'')
        | (Raise e, st'') => (Raise e, st'')
        end
    end.

Definition emit (ev : event) : M unit :=
  fun st => (Ret tt, {| files := files st; log := log st ++ [ev] |}).

Definition print (m : message) : M unit := emit (Printed m).

Definition sys_exit {A} (code : Z) : M A := raise (SystemExit code).

(** [d.get(key, default)]; anything but a [dict] has no [get]. *)
Definition py_get (d : json) (key : string) (default : json) : M json :=
  match d with
  | JObj kvs => mret (match assoc key kvs with Some v => v | None => default end)
  | _ => raise AttributeError
  end.

Fixpoint chars (s : string) : list json :=
  match s with
  | EmptyString => []
  | String c r => JStr (String c "") :: chars r
  end.

(** What a [for] loop iterates over. *)
Definition py_iter (v : json) : M (list json) :=
  match v with
  | JList l => mret l
  | JObj kvs => mret (map (fun kv => JStr (fst kv)) kvs)
  | JStr s => mret (chars s)
  | _ => raise TypeError
  end.

(** [json.loads(text)]; [None] stands for a [text] that is [None]. *)
Definition json_loads (text : option doc) : M json :=
  match text with
  | Some (Encodes v) => mret v
  | Some _ => raise JSONDecodeError
  | None => raise TypeError
  end.

(** Truthiness of a text: a non-empty [str]. *)
Definition text_truthy (text : option doc) : bool :=
  match text with
  | Some (Encodes _) | Some Malformed => true
  | _ => false
  end.

(** File operations. *)
Definition open_read (path : string) : M doc :=
  fun st =>
    match files st !! path with
    | Some d => (Ret d, st)
    | None => (Raise FileNotFoundError, st)
    end.

Definition write_file (path : string) (d : doc) : M unit :=
  fun st => (Ret tt, {| files := <[path := d]> (files st); log := log st |}).

Definition path_exists (path : string) : M bool :=
  fun st => (Ret (bool_decide (is_Some (files st !! path))), st).

Definition os_remove (path : string) : M unit :=
  fun st => (Ret tt, {| files := delete path (files st); log := log st |}).

(** ** The script *)

Definition temp_file : string := "temp_job_config.json".

(** The parsed command line of the script. *)
Record args : Type := Args {
  config : string;
  force_update : bool;
  run : bool
}.

Section Script.

Variable w : world.

(** [subprocess.run(cmd, shell=True, capture_output=..., text=True,
    check=True)]: the tool runs, and a non-zero exit status raises. *)
Definition subprocess_run (cmd : command) (capture_output : bool) : M completed :=
  fun st =>
    let (r, files') := bridge w (cmdline cmd) (files st) in
    let st' := {| files := files'; log := log st ++ [Ran cmd] |} in
    if (returncode r =? 0)%Z then (Ret r, st')
    else (Raise (CalledProcessError r capture_output), st').

(** [run_command] (lines 14-28): the stripped output, or [None] when it is
    not captured; a failed command is reported and ends in [sys.exit(1)]. *)
Definition run_command (cmd : command) (capture_output : bool) : M (option doc) :=
  try_except
    (result ← subprocess_run cmd capture_output;
     mret (if capture_output then Some (stdout result) else None))
    (fun e =>
       match e with
       | CalledProcessError r captured =>
           print (CommandFailed (cmdline cmd));;
           print (ErrorOutput (if captured then Some (stderr r) else None));;
           sys_exit 1
       | _ => raise e
       end).

(** [load_job_config] (lines 31-43). *)
Definition load_job_config (config_path : string) : M json :=
  try_except
    (f ← open_read config_path;
     config ← json_loads (Some f);
     print (LoadedConfig config_path);;
     mret config)
    (fun e =>
       match e with
       | FileNotFoundError => print (ConfigNotFound config_path);; sys_exit 1
       | JSONDecodeError => print (InvalidJSON e);; sys_exit 1
       | _ => raise e
       end).

(** The [for job in ...] loop of [get_existing_job_id] (lines 52-56). *)
Fixpoint find_job (jobs : list json) (job_name : json) : M json :=
  match jobs with
  | [] => mret JNull
  | job :: rest =>
      settings ← py_get job "settings" (JObj []);
      name ← py_get settings "name" JNull;
      if py_eq name job_name then py_get job "job_id" JNull
      else find_job rest job_name
  end.

(** [get_existing_job_id] (lines 46-59); [except Exception] lets a
    [SystemExit] through. *)
Definition get_existing_job_id (job_name : json) : M json :=
  try_except
    (result ← run_command JobsList true;
     jobs ← (if text_truthy result then json_loads result
             else mret (JObj [("jobs", JList [])]));
     listed ← py_get jobs "jobs" (JList []);
     iterated ← py_iter listed;
     find_job iterated job_name)
    (fun e =>
       if is_Exception e then print (CouldNotCheck e);; mret JNull
       else raise e).

(** [create_job] (lines 62-76). *)
Definition create_job (config_path : string) : M json :=
  print CreatingJob;;
  output ← run_command (JobsCreate config_path) true;
  try_except
    (result ← json_loads output;
     job_id ← py_get result "job_id" JNull;
     print (JobCreatedId job_id);;
     mret job_id)
    (fun e =>
       match e with
       | JSONDecodeError => print JobCreated;; mret JNull
       | _ => raise e
       end).

(** [update_job] (lines 79-96); the file written holds the definition, so
    it is a text that encodes it. *)
Definition update_job (job_id config : json) : M json :=
  print (UpdatingJob job_id);;
  write_file temp_file (Encodes config);;
  try_finally
    (run_command (JobsReset job_id temp_file) false;;
     print (JobUpdated job_id))
    (present ← path_exists temp_file;
     if (present : bool) then os_remove temp_file else mret tt);;
  mret job_id.

(** [manage_job] (lines 99-127). *)
Definition manage_job (config_path : string) (force_update : bool) : M json :=
  config ← load_job_config config_path;
  job_name ← py_get config "name" JNull;
  if negb (truthy job_name) then
    print NameNotFound;; sys_exit 1
  else
    print (ManagingJob job_name);;
    existing_job_id ← get_existing_job_id job_name;
    if truthy existing_job_id then
      print (AlreadyExists existing_job_id);;
      if force_update then update_job existing_job_id config
      else (print SkippingUpdate;; mret existing_job_id)
    else
      (print DoesNotExist;; create_job config_path).

(** [os.environ.get(name)] is truthy. *)
Definition env_set (name : string) : bool :=
  match environ w !! name with
  | Some s => negb (String.eqb s "")
  | None => false
  end.

(** [get_job_url] (lines 130-137). *)
Definition get_job_url (job_id : json) : option string :=
  let databricks_host := default "" (environ w !! "DATABRICKS_HOST") in
  if negb (String.eqb databricks_host "") && truthy job_id then
    let host := rstrip_slash databricks_host in
    Some (host +:+ "/#job/" +:+ py_str job_id)
  else None.

(** Truthiness of a value that is a [str] or [None]. *)
Definition url_truthy (u : option string) : bool :=
  match u with
  | Some s => negb (String.eqb s "")
  | None => false
  end.

(** [main] (lines 140-205), after the command line is parsed; the bare
    [except:] around the configuration step catches everything, [SystemExit]
    included. *)
Definition main (a : args) : M unit :=
  if negb (env_set "DATABRICKS_HOST") || negb (env_set "DATABRICKS_TOKEN") then
    print CredentialsMissing;; sys_exit 1
  else
    print ConfiguringApi;;
    try_except
      (run_command JobsConfigure false;; print ApiConfigured)
      (fun _ => print CouldNotConfigure);;
    print Rule;; print Title;; print Rule;;
    job_id ← manage_job (config a) (force_update a);
    let job_url := get_job_url job_id in
    (if url_truthy job_url then print (JobUrl (default "" job_url)) else mret tt);;
    (if run a && truthy job_id then
       print TriggeringRun;;
       output ← run_command (JobsRunNow job_id) true;
       try_except
         (result ← json_loads output;
          run_id ← py_get result "run_id" JNull;
          print (RunTriggeredId run_id);;
          if url_truthy job_url
          then print (RunUrl (default "" job_url +:+ "/runs/" +:+ py_str run_id))
          else mret tt)
         (fun e =>
            match e with
            | JSONDecodeError => print RunTriggered
            | _ => raise e
            end)
     else mret tt);;
    print RuleAfterBlankLine;; print Completed_ok;; print Rule.

End Script.

(** The exit status of the process: 0 when [main] returns, the code of a
    [SystemExit], and 1 after an exception nobody caught. *)
Definition exit_status (r : result unit) : Z :=
  match r with
  | Ret _ => 0
  | Raise (SystemExit code) => code
  | Raise _ => 1
  end.

(** Two stretches of [main], named to state what happens before and after
    [manage_job]: the configuration of the API version with the banner, and
    everything that follows the call of [manage_job]. *)
Definition configure_api (w : world) : M unit :=
  print ConfiguringApi;;
  try_except
    (run_command w JobsConfigure false;; print ApiConfigured)
    (fun _ => print CouldNotConfigure);;
  print Rule;; print Title;; print Rule.

Definition report (w : world) (a : args) (job_id : json) : M unit :=
  let job_url := get_job_url w job_id in
  (if url_truthy job_url then print (JobUrl (default "" job_url)) else mret tt);;
  (if run a && truthy job_id then
     print TriggeringRun;;
     output ← run_command w (JobsRunNow job_id) true;
     try_except
       (result ← json_loads output;
        run_id ← py_get result "run_id" JNull;
        print (RunTriggeredId run_id);;
        if url_truthy job_url
        then print (RunUrl (default "" job_url +:+ "/runs/" +:+ py_str run_id))
        else mret tt)
       (fun e =>
          match e with
          | JSONDecodeError => print RunTriggered
          | _ => raise e
          end)
   else mret tt);;
  print RuleAfterBlankLine;; print Completed_ok;; print Rule.

(** What [parser.parse_args()] (lines 141-160 of [main]) makes of the
    command line: after a usage error (no [--config], an option it does not
    know) argparse ends the process with status 2, after [-h] or [--help]
    with status 0, and otherwise it hands over the three settings.  The
    texts argparse writes itself, the help and the usage message, are no
    [print] of the script and are not recorded in the log. *)
Inductive command_line : Type :=
  | UsageError
  | HelpRequest
  | Parsed (a : args).

Definition parse_args (cl : command_line) : M args :=
  match cl with
  | UsageError => sys_exit 2
  | HelpRequest => sys_exit 0
  | Parsed a => mret a
  end.

(** [main] (lines 140-205) from its first line: the command line is parsed,
    and what follows [parse_args] is the body above. *)
Definition main_from_command_line (w : world) (cl : command_line) : M unit :=
  a ← parse_args cl; main w a.

(** ** Observing a run *)

Definition start (fs : gmap string doc) : state := {| files := fs; log := [] |}.

Definition is_list (c : command) : bool := match c with JobsList => true | _ => false end.
Definition is_create (c : command) : bool := match c with JobsCreate _ => true | _ => false end.
Definition is_update (c : command) : bool := match c with JobsReset _ _ => true | _ => false end.
Definition is_run (c : command) : bool := match c with JobsRunNow _ => true | _ => false end.

Definition is_job_url (m : message) : bool := match m with JobUrl _ => true | _ => false end.

(** The commands a log records, in order. *)
Fixpoint commands (l : list event) : list command :=
  match l with
  | [] => []
  | Ran c :: rest => c :: commands rest
  | Printed _ :: rest => commands rest
  end.

Fixpoint printed (l : list event) : list message :=
  match l with
  | [] => []
  | Ran _ :: rest => printed rest
  | Printed m :: rest => m :: printed rest
  end.

(** How many commands of a kind a log records. *)
Definition calls (kind : command -> bool) (l : list event) : nat :=
  List.length (List.filter kind (commands l)).

(** ** Reading a listing *)

(** The entries the loop of [get_existing_job_id] walks through when the
    listing has the shape the tool documents; no entries otherwise. *)
Definition listed (out : doc) : list json :=
  match out with
  | Blank => []
  | Encodes (JObj kvs) =>
      match assoc "jobs" kvs with
      | Some (JList l) => l
      | _ => []
      end
  | _ => []
  end.

(** The name and the identifier a well-formed entry carries: the entry is a
    mapping, and so is its [settings] when it has one. *)
Definition entry_view (job : json) : option (json * json) :=
  match job with
  | JObj kvs =>
      match default (JObj []) (assoc "settings" kvs) with
      | JObj settings =>
          Some (default JNull (assoc "name" settings), default JNull (assoc "job_id" kvs))
      | _ => None
      end
  | _ => None
  end.

(** The entry carries the name. *)
Definition named (job_name job : json) : bool :=
  match entry_view job with
  | Some (name, _) => py_eq name job_name
  | None => false
  end.

(** The entry is well formed and carries another name. *)
Definition other_job (job_name job : json) : bool :=
  match entry_view job with
  | Some (name, _) => negb (py_eq name job_name)
  | None => false
  end.

(** ** Observations used in the statements *)

(** The specification's [reconcile(definition, forceUpdate)]: [manage_job]
    run on the files present, from an empty log. *)
Definition reconcile (w : world) (config_path : string) (force_update : bool)
    (fs : gmap string doc) : result json * state :=
  manage_job w config_path force_update (start fs).

(** The commands a run issued, how many of a kind, and the lines it printed. *)
Definition issued {A} (out : result A * state) : list command := commands (log (snd out)).

Definition issued_count {A} (kind : command -> bool) (out : result A * state) : nat :=
  calls kind (log (snd out)).

Definition shown {A} (out : result A * state) : list message := printed (log (snd out)).

(** The lines a lookup can print: the two of a failed command, or a warning. *)
Definition lookup_message (m : message) : bool :=
  match m with
  | CommandFailed _ | ErrorOutput _ | CouldNotCheck _ => true
  | _ => false
  end.

(** [json.loads] accepts the text. *)
Definition decodes (d : doc) : bool :=
  match d with
  | Encodes _ => true
  | _ => false
  end.

(** In the specification's words: the listing is a sequence of names and
    identifiers, and the identifier resolved is that of the first entry whose
    name is, as a string, equal to the definition's name; [None] when there
    is no such entry. *)
Fixpoint first_match (name : string) (listing : list (json * json)) : json :=
  match listing with
  | [] => JNull
  | (entry_name, job_id) :: rest =>
      match entry_name with
      | JStr s => if String.eqb s name then job_id else first_match name rest
      | _ => first_match name rest
      end
  end.

(** The value is a [dict]. *)
Definition is_object (v : json) : bool :=
  match v with
  | JObj _ => true
  | _ => false
  end.

(** The lines that announce a created job. *)
Definition is_created_line (m : message) : bool :=
  match m with
  | JobCreated | JobCreatedId _ => true
  | _ => false
  end.

(** The line that announces success, at the very end of [main]. *)
Definition is_completed_line (m : message) : bool :=
  match m with
  | Completed_ok => true
  | _ => false
  end.

(** The lines [manage_job] and the functions it calls can print. *)
Definition manage_message (m : message) : bool :=
  match m with
  | CommandFailed _ | ErrorOutput _
  | LoadedConfig _ | ConfigNotFound _ | InvalidJSON _
  | CouldNotCheck _
  | CreatingJob | JobCreatedId _ | JobCreated
  | UpdatingJob _ | JobUpdated _
  | NameNotFound | ManagingJob _ | AlreadyExists _ | SkippingUpdate | DoesNotExist => true
  | _ => false
  end.

(** [main] returned: the process ends with status 0. *)
Definition returned {A} (r : result A) : bool :=
  match r with
  | Ret _ => true
  | Raise _ => false
  end.

(** ** Sample deployments *)

(** Outcomes of a command: success with some output, failure with a status. *)
Definition ok (out : doc) : completed := {| returncode := 0; stdout := out; stderr := "" |}.

Definition failed (code : Z) : completed :=
  {| returncode := code; stdout := Blank; stderr := "Error: connection refused" |}.

Definition created (job_id : Z) : completed := ok (Encodes (JObj [("job_id", JInt job_id)])).

(** A tool that answers by the kind of command and leaves the files alone. *)
Definition tool (listing create reset run_now : completed)
    (cmd : string) (fs : gmap string doc) : completed * gmap string doc :=
  if String.prefix "databricks jobs list" cmd then (listing, fs)
  else if String.prefix "databricks jobs create" cmd then (create, fs)
  else if String.prefix "databricks jobs reset" cmd then (reset, fs)
  else if String.prefix "databricks jobs run-now" cmd then (run_now, fs)
  else (ok Blank, fs).

Definition credentials (host : string) : gmap string string :=
  {[ "DATABRICKS_HOST" := host; "DATABRICKS_TOKEN" := "dapi-token" ]}.

(** An entry of the listing, as the tool prints it, and a listing. *)
Definition entry (name : string) (job_id : json) : json :=
  JObj [("job_id", job_id); ("settings", JObj [("name", JStr name)])].

Definition listing_of (jobs : list json) : completed :=
  ok (Encodes (JObj [("jobs", JList jobs)])).

(** The definition of the specification's examples, in the file [job.json]. *)
Definition ingest_daily : list (string * json) := [("name", JStr "ingest-daily")].

Definition config_files (kvs : list (string * json)) : gmap string doc :=
  {[ "job.json" := Encodes (JObj kvs) ]}.

(** A workspace that lists the given jobs and answers a create as given. *)
Definition registry (jobs : list json) (create : completed) : world :=
  {| environ := credentials "https://adb.example.net";
     bridge := tool (listing_of jobs) create (ok Blank) (ok Blank) |}.

Definition two_jobs : list json :=
  [entry "etl-hourly" (JInt 7); entry "ingest-daily" (JInt 42)].

(** A listing whose only entry of that name has no [job_id] at all. *)
Definition without_id : list json :=
  [entry "etl-hourly" (JInt 7); JObj [("settings", JObj [("name", JStr "ingest-daily")])]].

(** A listing with two jobs of one name. *)
Definition duplicates : list json :=
  [entry "etl-hourly" (JInt 7); entry "ingest-daily" (JInt 42);
   entry "Ingest-Daily" (JInt 13); entry "ingest-daily" (JInt 43)].

(** A workspace whose listing command exits with status 1. *)
Definition unreachable : world :=
  {| environ := credentials "https://adb.example.net";
     bridge := tool (failed 1) (created 99) (ok Blank) (ok Blank) |}.

(** A host written with a trailing slash, and a run that is acknowledged. *)
Definition with_slash : world :=
  {| environ := credentials "https://adb.example.net/";
     bridge := tool (listing_of two_jobs) (created 99) (ok Blank)
                    (ok (Encodes (JObj [("run_id", JInt 555); ("number_in_job", JInt 1)]))) |}.

(** An empty registry whose create command answers with plain text. *)
Definition chatty : world :=
  {| environ := credentials "https://adb.example.net";
     bridge := tool (listing_of []) (ok Malformed) (ok Blank) (ok Blank) |}.

(** A workspace without a token. *)
Definition no_token : world :=
  {| environ := {[ "DATABRICKS_HOST" := "https://adb.example.net" ]};
     bridge := tool (listing_of two_jobs) (created 99) (ok Blank) (ok Blank) |}.

(** A workspace whose tool does not know the configuration command. *)
Definition old_tool : world :=
  {| environ := credentials "https://adb.example.net";
     bridge := fun cmd fs =>
       if String.prefix "databricks jobs configure" cmd then (failed 2, fs)
       else tool (listing_of two_jobs) (created 99) (ok Blank) (ok Blank) cmd fs |}.

(** A workspace that lists two jobs and answers a run as given. *)
Definition runner (run_now : completed) : world :=
  {| environ := credentials "https://adb.example.net";
     bridge := tool (listing_of two_jobs) (created 99) (ok Blank) run_now |}.

(** ** Basic facts *)

Lemma commands_app (l1 l2 : list event) : commands (l1 ++ l2) = commands l1 ++ commands l2.
Proof.
  induction l1 as [|[c|m] l1 IH]; simpl; [done | by rewrite IH | done].
Qed.

Lemma printed_app (l1 l2 : list event) : printed (l1 ++ l2) = printed l1 ++ printed l2.
Proof.
  induction l1 as [|[c|m] l1 IH]; simpl; [done | done | by rewrite IH].
Qed.

Lemma calls_app (kind : command -> bool) (l1 l2 : list event) :
  calls kind (l1 ++ l2) = (calls kind l1 + calls kind l2)%nat.
Proof.
  unfold calls. by rewrite commands_app, List.filter_app, List.length_app.
Qed.

Lemma commands_printed (msgs : list message) : commands (map Printed msgs) = [].
Proof. induction msgs; [done | by simpl]. Qed.

Lemma printed_printed (msgs : list message) : printed (map Printed msgs) = msgs.
Proof. induction msgs; [done | simpl; by f_equal]. Qed.

(** On a string, Python's [==] is equality of strings. *)
Lemma py_eq_string (v : json) (s : string) : py_eq v (JStr s) = true <-> v = JStr s.
Proof.
  split.
  - destruct v; simpl; try discriminate.
    intros H. apply String.eqb_eq in H. by subst.
  - intros ->. simpl. apply String.eqb_refl.
Qed.

Ltac unfold_monad :=
  unfold json_loads, py_get, py_iter, print, sys_exit, emit, raise,
    write_file, path_exists, os_remove, open_read, try_except, try_finally,
    mbind, M_bind, mret, M_ret.

(** *** The loop over the listing *)

Lemma find_job_cons job rest job_name st :
  find_job (job :: rest) job_name st =
    match entry_view job with
    | Some (name, job_id) =>
        if py_eq name job_name then (Ret job_id, st) else find_job rest job_name st
    | None => (Raise AttributeError, st)
    end.
Proof.
  destruct job as [| | | | |kvs]; try reflexivity.
  unfold entry_view. cbn [find_job]. unfold_monad.
  destruct (assoc "settings" kvs) as [[| | | | |settings]|]; simpl; try reflexivity.
  - unfold default. by destruct (py_eq _ job_name).
  - unfold default. by destruct job_name.
Qed.

Lemma find_job_first pre e post job_name name job_id st :
  forallb (other_job job_name) pre = true ->
  entry_view e = Some (name, job_id) ->
  py_eq name job_name = true ->
  find_job (pre ++ e :: post) job_name st = (Ret job_id, st).
Proof.
  intros Hpre He Hname. induction pre as [|j pre IH].
  - simpl app. by rewrite find_job_cons, He, Hname.
  - simpl in Hpre. apply andb_prop in Hpre as [Hj Hpre].
    change ((j :: pre) ++ e :: post) with (j :: (pre ++ e :: post)).
    rewrite find_job_cons. unfold other_job in Hj.
    destruct (entry_view j) as [[nm i]|]; [|discriminate].
    apply negb_true_iff in Hj. rewrite Hj. by apply IH.
Qed.

Lemma find_job_unnamed jobs job_name st :
  forallb (fun j => negb (named job_name j)) jobs = true ->
  find_job jobs job_name st = (Ret JNull, st) \/
  find_job jobs job_name st = (Raise AttributeError, st).
Proof.
  induction jobs as [|j jobs IH]; intros H.
  - by left.
  - simpl in H. apply andb_prop in H as [Hj H].
    rewrite find_job_cons. unfold named in Hj.
    destruct (entry_view j) as [[nm i]|]; [|by right].
    apply negb_true_iff in Hj. rewrite Hj. by apply IH.
Qed.


Lemma chars_unnamed job_name s :
  forallb (fun j => negb (named job_name j)) (chars s) = true.
Proof. induction s; [done | simpl; by rewrite IHs]. Qed.

Lemma keys_unnamed job_name (kvs : list (string * json)) :
  forallb (fun j => negb (named job_name j)) (map (fun kv => JStr (fst kv)) kvs) = true.
Proof. induction kvs; [done | simpl; by rewrite IHkvs]. Qed.

(** *** Running a command *)

Section Facts.

Variable w : world.

Lemma run_command_ok cmd capture st r fs' :
  bridge w (cmdline cmd) (files st) = (r, fs') ->
  returncode r = 0 ->
  run_command w cmd capture st =
    (Ret (if capture then Some (stdout r) else None),
     {| files := fs'; log := log st ++ [Ran cmd] |}).
Proof.
  intros Hb Hr. unfold run_command, try_except, mbind, M_bind, subprocess_run.
  rewrite Hb, Hr. reflexivity.
Qed.

Lemma run_command_failed cmd capture st r fs' :
  bridge w (cmdline cmd) (files st) = (r, fs') ->
  returncode r <> 0 ->
  run_command w cmd capture st =
    (Raise (SystemExit 1),
     {| files := fs';
        log := ((log st ++ [Ran cmd]) ++ [Printed (CommandFailed (cmdline cmd))])
               ++ [Printed (ErrorOutput (if capture then Some (stderr r) else None))] |}).
Proof.
  intros Hb Hr. unfold run_command, try_except, mbind, M_bind, subprocess_run.
  rewrite Hb. apply Z.eqb_neq in Hr. rewrite Hr. reflexivity.
Qed.

(** *** Looking a job up *)

Lemma get_existing_job_id_exit job_name st r fs' :
  bridge w (cmdline JobsList) (files st) = (r, fs') ->
  returncode r <> 0 ->
  get_existing_job_id w job_name st =
    (Raise (SystemExit 1),
     {| files := fs';
        log := ((log st ++ [Ran JobsList]) ++ [Printed (CommandFailed (cmdline JobsList))])
               ++ [Printed (ErrorOutput (Some (stderr r)))] |}).
Proof.
  intros Hb Hr. unfold get_existing_job_id, try_except, mbind, M_bind.
  by rewrite (run_command_failed _ _ _ _ _ Hb Hr).
Qed.

Lemma get_existing_job_id_found job_name st r fs' pre e post name job_id :
  bridge w (cmdline JobsList) (files st) = (r, fs') ->
  returncode r = 0 ->
  listed (stdout r) = pre ++ e :: post ->
  forallb (other_job job_name) pre = true ->
  entry_view e = Some (name, job_id) ->
  py_eq name job_name = true ->
  get_existing_job_id w job_name st =
    (Ret job_id, {| files := fs'; log := log st ++ [Ran JobsList] |}).
Proof.
  intros Hb Hr Hl Hpre He Hname.
  unfold get_existing_job_id, try_except, mbind, M_bind.
  rewrite (run_command_ok _ _ _ _ _ Hb Hr).
  unfold listed in Hl. unfold_monad.
  destruct (stdout r) as [|[| | | | |kvs]|]; try by destruct pre.
  simpl.
  destruct (assoc "jobs" kvs) as [[| | | |l|]|]; try by destruct pre.
  subst l. by rewrite (find_job_first _ _ _ _ _ _ _ Hpre He Hname).
Qed.

(** A listing in which no entry carries the name resolves to [None],
    whatever its shape, with or without a warning. *)
Lemma get_existing_job_id_absent job_name st r fs' :
  bridge w (cmdline JobsList) (files st) = (r, fs') ->
  returncode r = 0 ->
  forallb (fun j => negb (named job_name j)) (listed (stdout r)) = true ->
  exists warnings,
    get_existing_job_id w job_name st =
      (Ret JNull, {| files := fs'; log := (log st ++ [Ran JobsList]) ++ map Printed warnings |})
    /\ (warnings = [] \/ exists e, warnings = [CouldNotCheck e]).
Proof.
  intros Hb Hr Hl.
  unfold get_existing_job_id, try_except, mbind, M_bind.
  rewrite (run_command_ok _ _ _ _ _ Hb Hr). unfold_monad.
  assert (Hquiet : forall fs (l : list event),
    exists warnings, (Ret JNull, {| files := fs; log := l |}) =
      (Ret JNull, {| files := fs; log := l ++ map Printed warnings |})
      /\ (warnings = [] \/ exists e, warnings = [CouldNotCheck e])).
  { intros fs l. exists []. simpl. rewrite app_nil_r. eauto. }
  assert (Hwarn : forall e fs (l : list event),
    exists warnings, (Ret JNull, {| files := fs; log := l ++ [Printed (CouldNotCheck e)] |}) =
      (Ret JNull, {| files := fs; log := l ++ map Printed warnings |})
      /\ (warnings = [] \/ exists e, warnings = [CouldNotCheck e])).
  { intros e fs l. exists [CouldNotCheck e]. eauto. }
  assert (Hloop : forall jobs st0,
    forallb (fun j => negb (named job_name j)) jobs = true ->
    exists warnings,
      match find_job jobs job_name st0 with
      | (Ret a, st') => (Ret a, st')
      | (Raise e, st') =>
          (if is_Exception e
           then fun st0 => (Ret JNull, {| files := files st0;
                                          log := log st0 ++ [Printed (CouldNotCheck e)] |})
           else fun st0 => (Raise e, st0)) st'
      end = (Ret JNull, {| files := files st0; log := log st0 ++ map Printed warnings |})
      /\ (warnings = [] \/ exists e, warnings = [CouldNotCheck e])).
  { intros jobs [fs l] Hj.
    destruct (find_job_unnamed jobs job_name {| files := fs; log := l |} Hj) as [-> | ->].
    - apply Hquiet.
    - apply Hwarn. }
  destruct (stdout r) as [|v|]; simpl.
  - apply Hquiet.
  - destruct v as [| | | | |kvs]; simpl; try apply Hwarn.
    unfold listed in Hl.
    destruct (assoc "jobs" kvs) as [[| | |s|l|kvs']|]; simpl; try apply Hwarn.
    + apply (Hloop (chars s) {| files := fs'; log := log st ++ [Ran JobsList] |}).
      apply chars_unnamed.
    + by apply (Hloop l {| files := fs'; log := log st ++ [Ran JobsList] |}).
    + apply (Hloop _ {| files := fs'; log := log st ++ [Ran JobsList] |}).
      apply keys_unnamed.
    + apply Hquiet.
  - apply Hwarn.
Qed.


(** *** Creating and updating *)

Lemma create_job_commands config_path st :
  commands (log (snd (create_job w config_path st))) =
    commands (log st) ++ [JobsCreate config_path].
Proof.
  unfold create_job. unfold_monad. simpl.
  destruct (bridge w (cmdline (JobsCreate config_path)) (files st)) as [r fs'] eqn:Hb.
  destruct (decide (returncode r = 0)) as [Hr|Hr].
  - pose proof (run_command_ok (JobsCreate config_path) true
      {| files := files st; log := log st ++ [Printed CreatingJob] |} r fs' Hb Hr) as ->.
    simpl. destruct (stdout r) as [|[| | | | |kvs]|]; simpl;
      rewrite ?commands_app; simpl; by rewrite ?app_nil_r.
  - pose proof (run_command_failed (JobsCreate config_path) true
      {| files := files st; log := log st ++ [Printed CreatingJob] |} r fs' Hb Hr) as ->.
    simpl. rewrite !commands_app. simpl. by rewrite !app_nil_r.
Qed.


(** What [update_job] leaves behind, whether the tool succeeds or not. *)
Lemma update_job_run job_id cfg st r fs' :
  bridge w (cmdline (JobsReset job_id temp_file))
         (<[temp_file := Encodes cfg]> (files st)) = (r, fs') ->
  exists outcome,
    update_job w job_id cfg st =
      (if (returncode r =? 0)%Z then Ret job_id else Raise (SystemExit 1),
       {| files := delete temp_file fs';
          log := ((log st ++ [Printed (UpdatingJob job_id)])
                  ++ [Ran (JobsReset job_id temp_file)]) ++ map Printed outcome |}).
Proof.
  intros Hb. unfold update_job. unfold_monad. simpl.
  assert (Hdel : (if bool_decide (is_Some (fs' !! temp_file))
                  then delete temp_file fs' else fs') = delete temp_file fs').
  { case_bool_decide as Hs; [done|].
    symmetry. apply delete_id. by apply eq_None_not_Some. }
  destruct (decide (returncode r = 0)) as [Hr|Hr].
  - pose proof (run_command_ok (JobsReset job_id temp_file) false
      {| files := <[temp_file := Encodes cfg]> (files st);
         log := log st ++ [Printed (UpdatingJob job_id)] |} r fs' Hb Hr) as ->.
    simpl. rewrite Hr. simpl. exists [JobUpdated job_id].
    rewrite <- Hdel at 1. by case_bool_decide.
  - pose proof (run_command_failed (JobsReset job_id temp_file) false
      {| files := <[temp_file := Encodes cfg]> (files st);
         log := log st ++ [Printed (UpdatingJob job_id)] |} r fs' Hb Hr) as ->.
    simpl. apply Z.eqb_neq in Hr. rewrite Hr.
    exists [CommandFailed (cmdline (JobsReset job_id temp_file)); ErrorOutput None].
    rewrite <- Hdel at 1. case_bool_decide; simpl; by rewrite <- !app_assoc.
Qed.

Lemma load_job_config_ok config_path cfg st :
  files st !! config_path = Some (Encodes cfg) ->
  load_job_config config_path st =
    (Ret cfg, {| files := files st; log := log st ++ [Printed (LoadedConfig config_path)] |}).
Proof.
  intros Hf. unfold load_job_config. unfold_monad. by rewrite Hf.
Qed.

(** *** The decision of [manage_job] *)

Lemma manage_job_lookup config_path force st kvs job_name :
  files st !! config_path = Some (Encodes (JObj kvs)) ->
  assoc "name" kvs = Some job_name ->
  truthy job_name = true ->
  manage_job w config_path force st =
    match get_existing_job_id w job_name
            {| files := files st;
               log := (log st ++ [Printed (LoadedConfig config_path)])
                      ++ [Printed (ManagingJob job_name)] |} with
    | (Ret v, st1) =>
        if truthy v then
          if force then
            update_job w v (JObj kvs)
              {| files := files st1; log := log st1 ++ [Printed (AlreadyExists v)] |}
          else
            (Ret v, {| files := files st1;
                       log := (log st1 ++ [Printed (AlreadyExists v)])
                              ++ [Printed SkippingUpdate] |})
        else
          create_job w config_path
            {| files := files st1; log := log st1 ++ [Printed DoesNotExist] |}
    | (Raise e, st1) => (Raise e, st1)
    end.
Proof.
  intros Hf Hn Ht. unfold manage_job.
  unfold mbind at 1. unfold M_bind at 1.
  rewrite (load_job_config_ok _ _ _ Hf).
  unfold_monad. rewrite Hn. simpl. rewrite Ht. simpl.
  destruct (get_existing_job_id _ _ _) as [[v|e] st1]; [|done].
  destruct (truthy v); [|done]. by destruct force.
Qed.

End Facts.

(** ** The reconciliation decision *)

(** C2, as the script has it: when the listing succeeds, the first entry that
    carries the definition's name has a truthy identifier, every entry before
    it is well formed, and [force_update] is off, [manage_job] returns that
    identifier and the only command it issues is the listing: no create, no
    update. *)
Theorem reconcile_skips_existing
    (w : world) (config_path : string) (fs fs1 : gmap string doc)
    (kvs : list (string * json)) (job_name : json) (r : completed)
    (pre post : list json) (e name job_id : json) :
  fs !! config_path = Some (Encodes (JObj kvs)) ->
  assoc "name" kvs = Some job_name ->
  truthy job_name = true ->
  bridge w (cmdline JobsList) fs = (r, fs1) ->
  returncode r = 0 ->
  listed (stdout r) = pre ++ e :: post ->
  forallb (other_job job_name) pre = true ->
  entry_view e = Some (name, job_id) ->
  py_eq name job_name = true ->
  truthy job_id = true ->
  fst (reconcile w config_path false fs) = Ret job_id /\
  issued (reconcile w config_path false fs) = [JobsList] /\
  issued_count is_create (reconcile w config_path false fs) = 0%nat /\
  issued_count is_update (reconcile w config_path false fs) = 0%nat.
Proof.
  intros Hf Hn Ht Hb Hr Hl Hpre He Hname Hid.
  unfold issued, issued_count, reconcile.
  rewrite (manage_job_lookup w config_path false (start fs) kvs job_name Hf Hn Ht).
  cbn [start files log app].
  rewrite (get_existing_job_id_found w job_name {| files := fs |} r fs1 pre e post
             name job_id Hb Hr Hl Hpre He Hname).
  rewrite Hid. simpl. done.
Qed.

Lemma reconcile_skips_existing_witness :
  fst (reconcile (registry two_jobs (created 99)) "job.json" false (config_files ingest_daily))
    = Ret (JInt 42) /\
  issued (reconcile (registry two_jobs (created 99)) "job.json" false (config_files ingest_daily))
    = [JobsList] /\
  issued_count is_create
    (reconcile (registry two_jobs (created 99)) "job.json" false (config_files ingest_daily))
    = 0%nat /\
  issued_count is_update
    (reconcile (registry two_jobs (created 99)) "job.json" false (config_files ingest_daily))
    = 0%nat.
Proof.
  apply (reconcile_skips_existing
           (registry two_jobs (created 99))
           "job.json" (config_files ingest_daily) (config_files ingest_daily)
           ingest_daily (JStr "ingest-daily") (listing_of two_jobs)
           [entry "etl-hourly" (JInt 7)] [] (entry "ingest-daily" (JInt 42))
           (JStr "ingest-daily") (JInt 42)); reflexivity.
Defined.

(** C2 as the specification words it fails: the listing has a job of the
    definition's name whose identifier is 0, [force_update] is off, and the
    script issues a create and returns the new identifier, not the existing
    one. *)
Lemma reconcile_skip_counterexample :
  fst (reconcile (registry [entry "ingest-daily" (JInt 0)] (created 99))
                 "job.json" false (config_files ingest_daily)) = Ret (JInt 99) /\
  issued_count is_create
    (reconcile (registry [entry "ingest-daily" (JInt 0)] (created 99))
               "job.json" false (config_files ingest_daily)) = 1%nat.
Proof. vm_compute. done. Qed.

(** C3, as the script has it: under the same conditions with [force_update]
    on, [manage_job] issues the listing and then exactly one update of the
    resolved identifier, never a create; it returns that same identifier when
    the update command exits with status 0, and terminates the process with
    status 1 otherwise. *)
Theorem reconcile_updates_existing
    (w : world) (config_path : string) (fs fs1 : gmap string doc)
    (kvs : list (string * json)) (job_name : json) (r : completed)
    (pre post : list json) (e name job_id : json) :
  fs !! config_path = Some (Encodes (JObj kvs)) ->
  assoc "name" kvs = Some job_name ->
  truthy job_name = true ->
  bridge w (cmdline JobsList) fs = (r, fs1) ->
  returncode r = 0 ->
  listed (stdout r) = pre ++ e :: post ->
  forallb (other_job job_name) pre = true ->
  entry_view e = Some (name, job_id) ->
  py_eq name job_name = true ->
  truthy job_id = true ->
  issued (reconcile w config_path true fs) = [JobsList; JobsReset job_id temp_file] /\
  issued_count is_update (reconcile w config_path true fs) = 1%nat /\
  issued_count is_create (reconcile w config_path true fs) = 0%nat /\
  fst (reconcile w config_path true fs) =
    if (returncode (fst (bridge w (cmdline (JobsReset job_id temp_file))
                                (<[temp_file := Encodes (JObj kvs)]> fs1))) =? 0)%Z
    then Ret job_id else Raise (SystemExit 1).
Proof.
  intros Hf Hn Ht Hb Hr Hl Hpre He Hname Hid.
  unfold issued, issued_count, reconcile.
  rewrite (manage_job_lookup w config_path true (start fs) kvs job_name Hf Hn Ht).
  cbn [start files log app].
  rewrite (get_existing_job_id_found w job_name {| files := fs |} r fs1 pre e post
             name job_id Hb Hr Hl Hpre He Hname).
  rewrite Hid.
  destruct (bridge w (cmdline (JobsReset job_id temp_file))
              (<[temp_file := Encodes (JObj kvs)]> fs1)) as [r2 fs2] eqn:Hb2.
  cbn [files log].
  destruct (update_job_run w job_id (JObj kvs)
              {| files := fs1;
                 log := ([Printed (LoadedConfig config_path); Printed (ManagingJob job_name)]
                         ++ [Ran JobsList]) ++ [Printed (AlreadyExists job_id)] |}
              r2 fs2 Hb2) as [outcome ->].
  unfold calls. cbn [fst snd files log].
  rewrite !commands_app. simpl.
  assert (commands (map Printed outcome) = []) as ->.
  { clear. induction outcome; [done | by simpl]. }
  done.
Qed.

Lemma reconcile_updates_existing_witness :
  issued (reconcile (registry two_jobs (created 99)) "job.json" true (config_files ingest_daily))
    = [JobsList; JobsReset (JInt 42) temp_file] /\
  issued_count is_update
    (reconcile (registry two_jobs (created 99)) "job.json" true (config_files ingest_daily))
    = 1%nat /\
  issued_count is_create
    (reconcile (registry two_jobs (created 99)) "job.json" true (config_files ingest_daily))
    = 0%nat /\
  fst (reconcile (registry two_jobs (created 99)) "job.json" true (config_files ingest_daily))
    = Ret (JInt 42).
Proof.
  apply (reconcile_updates_existing
           (registry two_jobs (created 99))
           "job.json" (config_files ingest_daily) (config_files ingest_daily)
           ingest_daily (JStr "ingest-daily") (listing_of two_jobs)
           [entry "etl-hourly" (JInt 7)] [] (entry "ingest-daily" (JInt 42))
           (JStr "ingest-daily") (JInt 42)); reflexivity.
Defined.

(** C3 as the specification words it fails: the listing has a job of the
    definition's name whose identifier is 0, [force_update] is on, and the
    script issues a create and no update. *)
Lemma reconcile_update_counterexample :
  issued_count is_update
    (reconcile (registry [entry "ingest-daily" (JInt 0)] (created 99))
               "job.json" true (config_files ingest_daily)) = 0%nat /\
  issued_count is_create
    (reconcile (registry [entry "ingest-daily" (JInt 0)] (created 99))
               "job.json" true (config_files ingest_daily)) = 1%nat /\
  fst (reconcile (registry [entry "ingest-daily" (JInt 0)] (created 99))
                 "job.json" true (config_files ingest_daily)) = Ret (JInt 99).
Proof. vm_compute. done. Qed.

Lemma manage_job_absent
    (w : world) (config_path : string) (force : bool) (fs fs1 : gmap string doc)
    (kvs : list (string * json)) (job_name : json) (r : completed) :
  fs !! config_path = Some (Encodes (JObj kvs)) ->
  assoc "name" kvs = Some job_name ->
  truthy job_name = true ->
  bridge w (cmdline JobsList) fs = (r, fs1) ->
  returncode r = 0 ->
  forallb (fun j => negb (named job_name j)) (listed (stdout r)) = true ->
  commands (log (snd (manage_job w config_path force (start fs))))
    = [JobsList; JobsCreate config_path].
Proof.
  intros Hf Hn Ht Hb Hr Hl.
  rewrite (manage_job_lookup w config_path force (start fs) kvs job_name Hf Hn Ht).
  cbn [start files log app].
  destruct (get_existing_job_id_absent w job_name
              {| files := fs;
                 log := [Printed (LoadedConfig config_path); Printed (ManagingJob job_name)] |}
              r fs1 Hb Hr Hl) as (warnings & -> & Hw).
  cbn [truthy files log]. rewrite create_job_commands. cbn [log].
  rewrite !commands_app.
  destruct Hw as [-> | [e ->]]; reflexivity.
Qed.

(** C4: when the listing succeeds and none of its entries carries the
    definition's name (an empty registry above all), [manage_job] issues the
    listing and then exactly one create, and no update, whether
    [force_update] is on or off. *)
Theorem reconcile_creates_when_absent
    (w : world) (config_path : string) (force : bool) (fs fs1 : gmap string doc)
    (kvs : list (string * json)) (job_name : json) (r : completed) :
  fs !! config_path = Some (Encodes (JObj kvs)) ->
  assoc "name" kvs = Some job_name ->
  truthy job_name = true ->
  bridge w (cmdline JobsList) fs = (r, fs1) ->
  returncode r = 0 ->
  forallb (fun j => negb (named job_name j)) (listed (stdout r)) = true ->
  issued (reconcile w config_path force fs) = [JobsList; JobsCreate config_path] /\
  issued_count is_create (reconcile w config_path force fs) = 1%nat /\
  issued_count is_update (reconcile w config_path force fs) = 0%nat.
Proof.
  intros Hf Hn Ht Hb Hr Hl.
  pose proof (manage_job_absent w config_path force fs fs1 kvs job_name r
                Hf Hn Ht Hb Hr Hl) as H.
  unfold issued, issued_count, calls, reconcile. by rewrite H.
Qed.

Lemma reconcile_creates_when_absent_witness :
  issued (reconcile (registry [] (created 99)) "job.json" true (config_files ingest_daily))
    = [JobsList; JobsCreate "job.json"] /\
  issued_count is_create
    (reconcile (registry [] (created 99)) "job.json" true (config_files ingest_daily)) = 1%nat /\
  issued_count is_update
    (reconcile (registry [] (created 99)) "job.json" true (config_files ingest_daily)) = 0%nat.
Proof.
  apply (reconcile_creates_when_absent (registry [] (created 99)) "job.json" true
           (config_files ingest_daily) (config_files ingest_daily)
           ingest_daily (JStr "ingest-daily") (listing_of [])); reflexivity.
Defined.

(** C9: when the first entry of the listing that carries the definition's
    name has a falsy identifier (none at all, or 0), the lookup yields that
    falsy value and [manage_job] takes the create path: the listing, then one
    create, no update. *)
Theorem reconcile_creates_on_falsy_identifier
    (w : world) (config_path : string) (force : bool) (fs fs1 : gmap string doc)
    (kvs : list (string * json)) (job_name : json) (r : completed)
    (pre post : list json) (e name job_id : json) :
  fs !! config_path = Some (Encodes (JObj kvs)) ->
  assoc "name" kvs = Some job_name ->
  truthy job_name = true ->
  bridge w (cmdline JobsList) fs = (r, fs1) ->
  returncode r = 0 ->
  listed (stdout r) = pre ++ e :: post ->
  forallb (other_job job_name) pre = true ->
  entry_view e = Some (name, job_id) ->
  py_eq name job_name = true ->
  truthy job_id = false ->
  fst (get_existing_job_id w job_name (start fs)) = Ret job_id /\
  issued (reconcile w config_path force fs) = [JobsList; JobsCreate config_path] /\
  issued_count is_create (reconcile w config_path force fs) = 1%nat /\
  issued_count is_update (reconcile w config_path force fs) = 0%nat.
Proof.
  intros Hf Hn Ht Hb Hr Hl Hpre He Hname Hid.
  split.
  { by rewrite (get_existing_job_id_found w job_name (start fs) r fs1 pre e post
                  name job_id Hb Hr Hl Hpre He Hname). }
  assert (issued (reconcile w config_path force fs) = [JobsList; JobsCreate config_path]) as H.
  { unfold issued, reconcile.
    rewrite (manage_job_lookup w config_path force (start fs) kvs job_name Hf Hn Ht).
    cbn [start files log app].
    rewrite (get_existing_job_id_found w job_name {| files := fs |} r fs1 pre e post
               name job_id Hb Hr Hl Hpre He Hname).
    rewrite Hid. by rewrite create_job_commands. }
  unfold issued_count, calls. unfold issued in H. by rewrite H.
Qed.

Lemma reconcile_creates_on_falsy_identifier_witness :
  fst (get_existing_job_id (registry without_id (created 99)) (JStr "ingest-daily")
         (start (config_files ingest_daily))) = Ret JNull /\
  issued (reconcile (registry without_id (created 99)) "job.json" true
            (config_files ingest_daily)) = [JobsList; JobsCreate "job.json"] /\
  issued_count is_create
    (reconcile (registry without_id (created 99)) "job.json" true
       (config_files ingest_daily)) = 1%nat /\
  issued_count is_update
    (reconcile (registry without_id (created 99)) "job.json" true
       (config_files ingest_daily)) = 0%nat.
Proof.
  apply (reconcile_creates_on_falsy_identifier (registry without_id (created 99))
           "job.json" true (config_files ingest_daily) (config_files ingest_daily)
           ingest_daily (JStr "ingest-daily") (listing_of without_id)
           [entry "etl-hourly" (JInt 7)] []
           (JObj [("settings", JObj [("name", JStr "ingest-daily")])])
           (JStr "ingest-daily") JNull); reflexivity.
Defined.

(** ** A listing that fails *)

(** The half of C1 the script delivers: a listing that exits with status 0
    but whose output [json.loads] rejects is reported by a warning, and the
    create path is taken. *)
Lemma unparsed_listing_creates
    (w : world) (config_path : string) (force : bool) (fs fs1 : gmap string doc)
    (kvs : list (string * json)) (job_name : json) (r : completed) :
  fs !! config_path = Some (Encodes (JObj kvs)) ->
  assoc "name" kvs = Some job_name ->
  truthy job_name = true ->
  bridge w (cmdline JobsList) fs = (r, fs1) ->
  returncode r = 0 ->
  stdout r = Malformed ->
  get_existing_job_id w job_name (start fs) =
    (Ret JNull, {| files := fs1;
                   log := [Ran JobsList; Printed (CouldNotCheck JSONDecodeError)] |}) /\
  issued (reconcile w config_path force fs) = [JobsList; JobsCreate config_path].
Proof.
  intros Hf Hn Ht Hb Hr Hout. split.
  - unfold get_existing_job_id, try_except, mbind, M_bind.
    rewrite (run_command_ok w JobsList true (start fs) r fs1 Hb Hr).
    rewrite Hout. reflexivity.
  - apply (manage_job_absent w config_path force fs fs1 kvs job_name r); try done.
    by rewrite Hout.
Qed.

(** C1 on a listing command that exits with a non-zero status: [run_command]
    leaves through [sys.exit(1)], which the [except Exception] clause of
    [get_existing_job_id] does not catch.  The process terminates with status
    1 after the listing; no warning is printed and no create is issued. *)
Theorem listing_exit_aborts
    (w : world) (config_path : string) (force : bool) (fs fs1 : gmap string doc)
    (kvs : list (string * json)) (job_name : json) (r : completed) :
  fs !! config_path = Some (Encodes (JObj kvs)) ->
  assoc "name" kvs = Some job_name ->
  truthy job_name = true ->
  bridge w (cmdline JobsList) fs = (r, fs1) ->
  returncode r <> 0 ->
  fst (reconcile w config_path force fs) = Raise (SystemExit 1) /\
  issued (reconcile w config_path force fs) = [JobsList] /\
  issued_count is_create (reconcile w config_path force fs) = 0%nat /\
  shown (reconcile w config_path force fs) =
    [LoadedConfig config_path; ManagingJob job_name;
     CommandFailed (cmdline JobsList); ErrorOutput (Some (stderr r))].
Proof.
  intros Hf Hn Ht Hb Hr.
  unfold issued, issued_count, shown, reconcile.
  rewrite (manage_job_lookup w config_path force (start fs) kvs job_name Hf Hn Ht).
  cbn [start files log app].
  rewrite (get_existing_job_id_exit w job_name {| files := fs |} r fs1 Hb Hr).
  done.
Qed.

Lemma listing_exit_aborts_witness :
  fst (reconcile unreachable "job.json" false (config_files ingest_daily))
    = Raise (SystemExit 1) /\
  issued (reconcile unreachable "job.json" false (config_files ingest_daily)) = [JobsList] /\
  issued_count is_create (reconcile unreachable "job.json" false (config_files ingest_daily))
    = 0%nat /\
  shown (reconcile unreachable "job.json" false (config_files ingest_daily)) =
    [LoadedConfig "job.json"; ManagingJob (JStr "ingest-daily");
     CommandFailed (cmdline JobsList); ErrorOutput (Some (stderr (failed 1)))].
Proof.
  apply (listing_exit_aborts unreachable "job.json" false
           (config_files ingest_daily) (config_files ingest_daily)
           ingest_daily (JStr "ingest-daily") (failed 1)); [reflexivity .. | discriminate].
Defined.

(** ** The scratch file of an update *)

(** C5: whatever the tool does, [update_job] terminates, by returning the
    identifier or by leaving through [sys.exit(1)], and the scratch file does
    not exist afterwards. *)
Theorem update_job_removes_scratch
    (w : world) (job_id config : json) (st : state) :
  files (snd (update_job w job_id config st)) !! temp_file = None /\
  (fst (update_job w job_id config st) = Ret job_id \/
   fst (update_job w job_id config st) = Raise (SystemExit 1)).
Proof.
  destruct (bridge w (cmdline (JobsReset job_id temp_file))
              (<[temp_file := Encodes config]> (files st))) as [r fs'] eqn:Hb.
  destruct (update_job_run w job_id config st r fs' Hb) as [outcome ->].
  split.
  - apply lookup_delete_eq.
  - simpl. destruct (returncode r =? 0)%Z; auto.
Qed.

(** The scratch file holds the definition when the tool runs. *)
Lemma update_job_writes_scratch
    (w : world) (job_id config : json) (st : state) (r : completed) (fs' : gmap string doc) :
  bridge w (cmdline (JobsReset job_id temp_file))
         (<[temp_file := Encodes config]> (files st)) = (r, fs') ->
  (<[temp_file := Encodes config]> (files st)) !! temp_file = Some (Encodes config) /\
  files (snd (update_job w job_id config st)) = delete temp_file fs'.
Proof.
  intros Hb. split; [apply lookup_insert_eq|].
  by destruct (update_job_run w job_id config st r fs' Hb) as [outcome ->].
Qed.

(** ** A definition without a name *)

Lemma manage_job_nameless
    (w : world) (config_path : string) (force : bool) (st : state)
    (kvs : list (string * json)) :
  files st !! config_path = Some (Encodes (JObj kvs)) ->
  truthy (default JNull (assoc "name" kvs)) = false ->
  manage_job w config_path force st =
    (Raise (SystemExit 1),
     {| files := files st;
        log := (log st ++ [Printed (LoadedConfig config_path)]) ++ [Printed NameNotFound] |}).
Proof.
  intros Hf Hn. unfold manage_job.
  unfold mbind at 1. unfold M_bind at 1.
  rewrite (load_job_config_ok _ _ _ Hf).
  unfold_monad. simpl.
  destruct (assoc "name" kvs) as [v|]; simpl in Hn |- *; by rewrite ?Hn.
Qed.

(** ** The whole script *)

Section Main.

Variable w : world.

Lemma configure_api_run st :
  exists msgs,
    configure_api w st =
      (Ret tt,
       {| files := snd (bridge w (cmdline JobsConfigure) (files st));
          log := log st ++ Printed ConfiguringApi :: Ran JobsConfigure :: map Printed msgs |})
    /\ existsb is_job_url msgs = false.
Proof.
  destruct (bridge w (cmdline JobsConfigure) (files st)) as [r fs'] eqn:Hb.
  unfold configure_api. unfold_monad. cbn [files log snd].
  destruct (decide (returncode r = 0)) as [Hr|Hr].
  - pose proof (run_command_ok w JobsConfigure false
      {| files := files st; log := log st ++ [Printed ConfiguringApi] |} r fs' Hb Hr) as ->.
    simpl. exists [ApiConfigured; Rule; Title; Rule].
    rewrite <- !app_assoc. simpl. auto.
  - pose proof (run_command_failed w JobsConfigure false
      {| files := files st; log := log st ++ [Printed ConfiguringApi] |} r fs' Hb Hr) as ->.
    simpl.
    exists [CommandFailed (cmdline JobsConfigure); ErrorOutput None; CouldNotConfigure;
            Rule; Title; Rule].
    rewrite <- !app_assoc. simpl. auto.
Qed.

(** [main] without credentials stops before anything else. *)
Lemma main_without_credentials a st :
  env_set w "DATABRICKS_HOST" && env_set w "DATABRICKS_TOKEN" = false ->
  main w a st =
    (Raise (SystemExit 1),
     {| files := files st; log := log st ++ [Printed CredentialsMissing] |}).
Proof.
  intros Hc. unfold main.
  destruct (env_set w "DATABRICKS_HOST"), (env_set w "DATABRICKS_TOKEN");
    try discriminate; reflexivity.
Qed.

(** [main] with credentials: the configuration, [manage_job], the report. *)
Lemma main_with_credentials a st :
  env_set w "DATABRICKS_HOST" = true ->
  env_set w "DATABRICKS_TOKEN" = true ->
  main w a st =
    match manage_job w (config a) (force_update a) (snd (configure_api w st)) with
    | (Ret job_id, st1) => report w a job_id st1
    | (Raise e, st1) => (Raise e, st1)
    end.
Proof.
  intros Hh Ht. unfold main, configure_api, report.
  rewrite Hh, Ht. cbn [negb orb].
  unfold print, emit, try_except, mbind, M_bind. cbn [files log].
  destruct (run_command w JobsConfigure false _) as [[o|e] st']; reflexivity.
Qed.

(** C6: a definition whose [name] is absent or empty is fatal.
    [manage_job] leaves through [sys.exit(1)] without issuing a command,
    and the process ends with status 1 having issued no list, create,
    update or run command. *)
Theorem nameless_definition_is_fatal
    (a : args) (fs : gmap string doc) (kvs : list (string * json)) :
  fs !! config a = Some (Encodes (JObj kvs)) ->
  snd (bridge w (cmdline JobsConfigure) fs) !! config a = Some (Encodes (JObj kvs)) ->
  assoc "name" kvs = None \/ assoc "name" kvs = Some (JStr "") ->
  (fst (reconcile w (config a) (force_update a) fs) = Raise (SystemExit 1) /\
   issued (reconcile w (config a) (force_update a) fs) = []) /\
  exit_status (fst (main w a (start fs))) = 1 /\
  issued_count is_list (main w a (start fs)) = 0%nat /\
  issued_count is_create (main w a (start fs)) = 0%nat /\
  issued_count is_update (main w a (start fs)) = 0%nat /\
  issued_count is_run (main w a (start fs)) = 0%nat.
Proof.
  intros Hf Hf' Hn.
  assert (truthy (default JNull (assoc "name" kvs)) = false) as Hfalsy.
  { by destruct Hn as [-> | ->]. }
  split.
  { unfold issued, reconcile.
    by rewrite (manage_job_nameless w (config a) (force_update a) (start fs) kvs Hf Hfalsy). }
  unfold issued_count.
  destruct (env_set w "DATABRICKS_HOST" && env_set w "DATABRICKS_TOKEN") eqn:Hc.
  - apply andb_prop in Hc as [Hh Ht].
    rewrite (main_with_credentials a (start fs) Hh Ht).
    destruct (configure_api_run (start fs)) as (msgs & -> & _).
    cbn [snd start files log app].
    rewrite (manage_job_nameless w (config a) (force_update a)
               {| files := snd (bridge w (cmdline JobsConfigure) fs) |} kvs Hf' Hfalsy).
    cbn [fst snd files log exit_status]. unfold calls.
    rewrite !commands_app. simpl. by rewrite commands_printed.
  - by rewrite (main_without_credentials a (start fs) Hc).
Qed.

End Main.

Lemma nameless_definition_is_fatal_witness :
  (fst (reconcile (registry two_jobs (created 99)) "job.json" false (config_files []))
     = Raise (SystemExit 1) /\
   issued (reconcile (registry two_jobs (created 99)) "job.json" false (config_files [])) = []) /\
  exit_status (fst (main (registry two_jobs (created 99)) (Args "job.json" false true)
                         (start (config_files [])))) = 1 /\
  issued_count is_list (main (registry two_jobs (created 99)) (Args "job.json" false true)
                             (start (config_files []))) = 0%nat /\
  issued_count is_create (main (registry two_jobs (created 99)) (Args "job.json" false true)
                               (start (config_files []))) = 0%nat /\
  issued_count is_update (main (registry two_jobs (created 99)) (Args "job.json" false true)
                               (start (config_files []))) = 0%nat /\
  issued_count is_run (main (registry two_jobs (created 99)) (Args "job.json" false true)
                            (start (config_files []))) = 0%nat.
Proof.
  apply (nameless_definition_is_fatal (registry two_jobs (created 99))
           (Args "job.json" false true) (config_files []) []);
    [reflexivity | reflexivity | left; reflexivity].
Defined.

(** ** Resolving the identifier *)

Lemma find_job_first_match (jobs : list json) (views : list (json * json))
    (name : string) (st : state) :
  map entry_view jobs = map Some views ->
  find_job jobs (JStr name) st = (Ret (first_match name views), st).
Proof.
  revert views. induction jobs as [|j jobs IH]; intros [|[nm i] views] Hv;
    try discriminate; [done|].
  simpl in Hv. injection Hv as Hj Hv.
  rewrite find_job_cons, Hj. simpl.
  destruct nm; simpl; try by apply IH.
  destruct (String.eqb s name); [done | by apply IH].
Qed.

(** C7: on a listing of well-formed entries the lookup returns the identifier
    of the first entry whose name equals the definition's name as a string,
    and [None] when there is none.  Further entries of that name change
    nothing: nothing is printed and nothing is raised. *)
Theorem lookup_is_first_exact_match
    (w : world) (st : state) (r : completed) (fs' : gmap string doc)
    (kvs : list (string * json)) (jobs : list json) (views : list (json * json))
    (name : string) :
  bridge w (cmdline JobsList) (files st) = (r, fs') ->
  returncode r = 0 ->
  stdout r = Encodes (JObj kvs) ->
  assoc "jobs" kvs = Some (JList jobs) ->
  map entry_view jobs = map Some views ->
  get_existing_job_id w (JStr name) st =
    (Ret (first_match name views), {| files := fs'; log := log st ++ [Ran JobsList] |}).
Proof.
  intros Hb Hr Hout Hjobs Hv.
  unfold get_existing_job_id, try_except, mbind, M_bind.
  rewrite (run_command_ok w JobsList true st r fs' Hb Hr).
  rewrite Hout. unfold_monad. simpl. rewrite Hjobs.
  by rewrite (find_job_first_match jobs views name _ Hv).
Qed.

Lemma lookup_is_first_exact_match_witness :
  get_existing_job_id (registry duplicates (created 99)) (JStr "ingest-daily") (start ∅) =
    (Ret (JInt 42), {| files := ∅; log := [Ran JobsList] |}).
Proof.
  apply (lookup_is_first_exact_match (registry duplicates (created 99)) (start ∅)
           (listing_of duplicates) ∅ [("jobs", JList duplicates)] duplicates
           [(JStr "etl-hourly", JInt 7); (JStr "ingest-daily", JInt 42);
            (JStr "Ingest-Daily", JInt 13); (JStr "ingest-daily", JInt 43)]
           "ingest-daily"); reflexivity.
Defined.

(** ** The addresses shown *)

Lemma job_url_not_empty (host rest : string) :
  String.eqb (host +:+ "/#job/" +:+ rest) "" = false.
Proof. by destruct host. Qed.

Section Addresses.

Variable w : world.

Lemma get_job_url_truthy (host : string) (job_id : json) :
  environ w !! "DATABRICKS_HOST" = Some host ->
  host <> "" ->
  truthy job_id = true ->
  get_job_url w job_id = Some (rstrip_slash host +:+ "/#job/" +:+ py_str job_id).
Proof.
  intros Hh Hne Hid. unfold get_job_url. rewrite Hh, Hid. simpl.
  apply String.eqb_neq in Hne. by rewrite Hne.
Qed.


(** With a non-empty host and a truthy identifier, the first thing the
    report does is to show the address of the job, whether a run is asked
    for or not and however the run ends. *)
Lemma report_shows_job_url (a : args) (host : string) (job_id : json) (st : state) :
  environ w !! "DATABRICKS_HOST" = Some host ->
  host <> "" ->
  truthy job_id = true ->
  exists res fs' rest,
    report w a job_id st =
      (res, {| files := fs';
               log := log st ++
                      Printed (JobUrl (rstrip_slash host +:+ "/#job/" +:+ py_str job_id))
                      :: rest |}).
Proof.
  intros Hh Hne Hid. unfold report.
  rewrite (get_job_url_truthy host job_id Hh Hne Hid), Hid.
  cbn [url_truthy default from_option id]. rewrite job_url_not_empty. cbn [negb].
  destruct (run a); cbn [andb].
  - destruct (bridge w (cmdline (JobsRunNow job_id)) (files st)) as [r fs'] eqn:Hb.
    destruct (decide (returncode r = 0)) as [Hr|Hr].
    + destruct (stdout r) as [|[| | | | |out]|] eqn:Hout;
        (eexists _, _, _;
         unfold print, emit, mbind, M_bind, mret, M_ret; cbn [files log];
         rewrite (run_command_ok w (JobsRunNow job_id) true {| files := files st |}
                    r fs' Hb Hr);
         rewrite Hout; unfold_monad; cbn [files log];
         rewrite <- ?app_assoc; reflexivity).
    + eexists _, _, _.
      unfold print, emit, mbind, M_bind, mret, M_ret. cbn [files log].
      rewrite (run_command_failed w (JobsRunNow job_id) true {| files := files st |}
                 r fs' Hb Hr).
      cbn [files log]. rewrite <- ?app_assoc. reflexivity.
  - eexists _, _, _. unfold_monad. cbn [files log].
    rewrite <- ?app_assoc. reflexivity.
Qed.

(** C8, as the script has it: with a non-empty host and a truthy
    identifier, the job address is the host without its trailing slashes,
    then [/#job/], then the identifier, and [main] shows it once
    [manage_job] has returned that identifier, with or without [--run] and
    however a run ends.  Without [--run] nothing but the closing lines
    follows; when a run is asked for and the tool answers with a JSON
    object, the run address shown is the job address, then [/runs/], then
    the run identifier. *)
Theorem urls_shown
    (a : args) (fs : gmap string doc) (host : string) (job_id : json) (st : state) :
  environ w !! "DATABRICKS_HOST" = Some host ->
  host <> "" ->
  env_set w "DATABRICKS_TOKEN" = true ->
  manage_job w (config a) (force_update a) (snd (configure_api w (start fs)))
    = (Ret job_id, st) ->
  truthy job_id = true ->
  get_job_url w job_id = Some (rstrip_slash host +:+ "/#job/" +:+ py_str job_id) /\
  (exists rest,
     shown (main w a (start fs)) =
       printed (log st) ++
       JobUrl (rstrip_slash host +:+ "/#job/" +:+ py_str job_id) :: rest) /\
  (run a = false ->
   shown (main w a (start fs)) =
     printed (log st) ++
     [JobUrl (rstrip_slash host +:+ "/#job/" +:+ py_str job_id);
      RuleAfterBlankLine; Completed_ok; Rule]) /\
  (run a = true ->
   forall (r : completed) (fs' : gmap string doc) (kvs : list (string * json)),
     bridge w (cmdline (JobsRunNow job_id)) (files st) = (r, fs') ->
     returncode r = 0 ->
     stdout r = Encodes (JObj kvs) ->
     shown (main w a (start fs)) =
       printed (log st) ++
       [JobUrl (rstrip_slash host +:+ "/#job/" +:+ py_str job_id);
        TriggeringRun;
        RunTriggeredId (default JNull (assoc "run_id" kvs));
        RunUrl ((rstrip_slash host +:+ "/#job/" +:+ py_str job_id)
                +:+ "/runs/" +:+ py_str (default JNull (assoc "run_id" kvs)));
        RuleAfterBlankLine; Completed_ok; Rule]).
Proof.
  intros Hh Hne Ht Hm Hid.
  pose proof (get_job_url_truthy host job_id Hh Hne Hid) as Hurl.
  split; [done|].
  assert (env_set w "DATABRICKS_HOST" = true) as Hset.
  { unfold env_set. rewrite Hh. apply String.eqb_neq in Hne. by rewrite Hne. }
  unfold shown. rewrite (main_with_credentials w a (start fs) Hset Ht), Hm.
  split; [|split].
  - destruct (report_shows_job_url a host job_id st Hh Hne Hid)
      as (res & fs' & rest & ->).
    cbn [snd log]. exists (printed rest). by rewrite printed_app.
  - intros Hrun. unfold report. rewrite Hurl, Hrun, Hid.
    cbn [andb url_truthy default from_option id]. rewrite job_url_not_empty. cbn [negb].
    unfold_monad. cbn [snd files log].
    rewrite <- !app_assoc. by rewrite printed_app.
  - intros Hrun r fs' kvs Hb Hr Hout.
    unfold report. rewrite Hurl, Hrun, Hid. cbn [andb url_truthy default].
    rewrite job_url_not_empty. cbn [negb].
    unfold print, emit, mbind, M_bind. cbn [files log].
    rewrite (run_command_ok w (JobsRunNow job_id) true {| files := files st |} r fs' Hb Hr).
    rewrite Hout. unfold_monad. simpl.
    rewrite <- !app_assoc. rewrite printed_app. simpl.
    by destruct (assoc "run_id" kvs).
Qed.

End Addresses.

(** C8 as the specification words it fails: the host ends in a slash, and the
    address shown is not the host followed by [/#job/] and the identifier. *)
Lemma job_url_counterexample :
  get_job_url with_slash (JInt 42) = Some "https://adb.example.net/#job/42" /\
  get_job_url with_slash (JInt 42)
    <> Some ("https://adb.example.net/" +:+ "/#job/" +:+ py_str (JInt 42)).
Proof. split; [reflexivity | discriminate]. Qed.

Lemma urls_shown_witness :
  get_job_url with_slash (JInt 42) = Some "https://adb.example.net/#job/42" /\
  shown (main with_slash (Args "job.json" false true) (start (config_files ingest_daily))) =
    [ConfiguringApi; ApiConfigured; Rule; Title; Rule;
     LoadedConfig "job.json"; ManagingJob (JStr "ingest-daily");
     AlreadyExists (JInt 42); SkippingUpdate;
     JobUrl "https://adb.example.net/#job/42";
     TriggeringRun;
     RunTriggeredId (JInt 555);
     RunUrl "https://adb.example.net/#job/42/runs/555";
     RuleAfterBlankLine; Completed_ok; Rule].
Proof.
  assert (Hhost : "https://adb.example.net/" <> "") by discriminate.
  destruct (urls_shown with_slash (Args "job.json" false true)
              (config_files ingest_daily)
              "https://adb.example.net/" (JInt 42)
              (snd (manage_job with_slash "job.json" false
                      (snd (configure_api with_slash (start (config_files ingest_daily))))))
              eq_refl Hhost eq_refl eq_refl eq_refl)
    as (Hurl & _ & _ & Hrun).
  split; [exact Hurl|].
  exact (Hrun eq_refl
           (ok (Encodes (JObj [("run_id", JInt 555); ("number_in_job", JInt 1)])))
           (config_files ingest_daily)
           [("run_id", JInt 555); ("number_in_job", JInt 1)]
           eq_refl eq_refl eq_refl).
Defined.

(** ** A create whose answer is not JSON *)

Section Unparsed.

Variable w : world.



End Unparsed.


(** * Further properties of the script *)

(** ** Loading the configuration *)

Lemma load_job_config_missing (config_path : string) (st : state) :
  files st !! config_path = None ->
  load_job_config config_path st =
    (Raise (SystemExit 1),
     {| files := files st; log := log st ++ [Printed (ConfigNotFound config_path)] |}).
Proof. intros Hf. unfold load_job_config. unfold_monad. by rewrite Hf. Qed.

Lemma load_job_config_undecodable (config_path : string) (d : doc) (st : state) :
  files st !! config_path = Some d ->
  decodes d = false ->
  load_job_config config_path st =
    (Raise (SystemExit 1),
     {| files := files st; log := log st ++ [Printed (InvalidJSON JSONDecodeError)] |}).
Proof.
  intros Hf Hd. unfold load_job_config. unfold_monad. rewrite Hf.
  by destruct d.
Qed.

Lemma manage_job_not_loaded
    (w : world) (config_path : string) (force : bool) (st st' : state) (e : exc) :
  load_job_config config_path st = (Raise e, st') ->
  manage_job w config_path force st = (Raise e, st').
Proof.
  intros Hl. unfold manage_job.
  unfold mbind at 1. unfold M_bind at 1. by rewrite Hl.
Qed.

(** X1: without the configuration file nothing is done: the process is ended
    with status 1 after one line that names the path, no command is issued
    and no file is touched. *)
Theorem missing_config_is_fatal
    (w : world) (config_path : string) (force : bool) (fs : gmap string doc) :
  fs !! config_path = None ->
  fst (reconcile w config_path force fs) = Raise (SystemExit 1) /\
  shown (reconcile w config_path force fs) = [ConfigNotFound config_path] /\
  issued (reconcile w config_path force fs) = [] /\
  files (snd (reconcile w config_path force fs)) = fs.
Proof.
  intros Hf. unfold shown, issued, reconcile.
  by rewrite (manage_job_not_loaded w config_path force (start fs) _ _
                (load_job_config_missing config_path (start fs) Hf)).
Qed.

Lemma missing_config_is_fatal_witness :
  fst (reconcile (registry two_jobs (created 99)) "other.json" true (config_files ingest_daily))
    = Raise (SystemExit 1) /\
  shown (reconcile (registry two_jobs (created 99)) "other.json" true
           (config_files ingest_daily)) = [ConfigNotFound "other.json"] /\
  issued (reconcile (registry two_jobs (created 99)) "other.json" true
            (config_files ingest_daily)) = [] /\
  files (snd (reconcile (registry two_jobs (created 99)) "other.json" true
                (config_files ingest_daily))) = config_files ingest_daily.
Proof.
  apply (missing_config_is_fatal (registry two_jobs (created 99)) "other.json" true
           (config_files ingest_daily)).
  reflexivity.
Defined.

(** X2: a configuration file that is empty or is not JSON is fatal in the
    same way: status 1 after one line, no command issued. *)
Theorem undecodable_config_is_fatal
    (w : world) (config_path : string) (force : bool) (fs : gmap string doc) (d : doc) :
  fs !! config_path = Some d ->
  decodes d = false ->
  fst (reconcile w config_path force fs) = Raise (SystemExit 1) /\
  shown (reconcile w config_path force fs) = [InvalidJSON JSONDecodeError] /\
  issued (reconcile w config_path force fs) = [].
Proof.
  intros Hf Hd. unfold shown, issued, reconcile.
  by rewrite (manage_job_not_loaded w config_path force (start fs) _ _
                (load_job_config_undecodable config_path d (start fs) Hf Hd)).
Qed.

Lemma undecodable_config_is_fatal_witness :
  fst (reconcile (registry two_jobs (created 99)) "job.json" false {[ "job.json" := Blank ]})
    = Raise (SystemExit 1) /\
  shown (reconcile (registry two_jobs (created 99)) "job.json" false {[ "job.json" := Blank ]})
    = [InvalidJSON JSONDecodeError] /\
  issued (reconcile (registry two_jobs (created 99)) "job.json" false {[ "job.json" := Blank ]})
    = [].
Proof.
  apply (undecodable_config_is_fatal (registry two_jobs (created 99)) "job.json" false
           {[ "job.json" := Blank ]} Blank); reflexivity.
Defined.

Lemma manage_job_non_object
    (w : world) (config_path : string) (force : bool) (st : state) (v : json) :
  files st !! config_path = Some (Encodes v) ->
  is_object v = false ->
  manage_job w config_path force st =
    (Raise AttributeError,
     {| files := files st; log := log st ++ [Printed (LoadedConfig config_path)] |}).
Proof.
  intros Hf Hv. unfold manage_job.
  unfold mbind at 1. unfold M_bind at 1.
  rewrite (load_job_config_ok config_path v st Hf).
  unfold_monad. by destruct v.
Qed.

(** X3: a configuration that is JSON but not an object is not reported as
    invalid: it is announced as loaded, and [config.get] then raises an
    [AttributeError] that nothing catches, before any command is issued. *)
Theorem non_object_config_crashes
    (w : world) (config_path : string) (force : bool) (fs : gmap string doc) (v : json) :
  fs !! config_path = Some (Encodes v) ->
  is_object v = false ->
  fst (reconcile w config_path force fs) = Raise AttributeError /\
  shown (reconcile w config_path force fs) = [LoadedConfig config_path] /\
  issued (reconcile w config_path force fs) = [].
Proof.
  intros Hf Hv. unfold shown, issued, reconcile.
  by rewrite (manage_job_non_object w config_path force (start fs) v Hf Hv).
Qed.

Lemma non_object_config_crashes_witness :
  fst (reconcile (registry two_jobs (created 99)) "job.json" false
         {[ "job.json" := Encodes (JList [JObj ingest_daily]) ]}) = Raise AttributeError /\
  shown (reconcile (registry two_jobs (created 99)) "job.json" false
           {[ "job.json" := Encodes (JList [JObj ingest_daily]) ]}) = [LoadedConfig "job.json"] /\
  issued (reconcile (registry two_jobs (created 99)) "job.json" false
            {[ "job.json" := Encodes (JList [JObj ingest_daily]) ]}) = [].
Proof.
  apply (non_object_config_crashes (registry two_jobs (created 99)) "job.json" false
           {[ "job.json" := Encodes (JList [JObj ingest_daily]) ]} (JList [JObj ingest_daily]));
    reflexivity.
Defined.

(** ** The lookup, in general *)

(** The loop raises nothing but the [AttributeError] of an entry, or the
    settings of an entry, without [get]. *)
Lemma find_job_outcome (jobs : list json) (job_name : json) :
  exists res,
    (forall st, find_job jobs job_name st = (res, st)) /\
    ((exists v, res = Ret v) \/ res = Raise AttributeError).
Proof.
  induction jobs as [|j jobs (res & IH & Hres)].
  - exists (Ret JNull). split; [done | eauto].
  - destruct (entry_view j) as [[nm i]|] eqn:Hv.
    + destruct (py_eq nm job_name) eqn:Hn.
      * exists (Ret i). split; [|eauto]. intros st. by rewrite find_job_cons, Hv, Hn.
      * exists res. split; [|done]. intros st. by rewrite find_job_cons, Hv, Hn.
    + exists (Raise AttributeError). split; [|auto].
      intros st. by rewrite find_job_cons, Hv.
Qed.

Lemma get_existing_job_id_trace
    (w : world) (job_name : json) (st : state) (r : completed) (fs' : gmap string doc) :
  bridge w (cmdline JobsList) (files st) = (r, fs') ->
  exists res msgs,
    get_existing_job_id w job_name st =
      (res, {| files := fs'; log := (log st ++ [Ran JobsList]) ++ map Printed msgs |}) /\
    forallb lookup_message msgs = true /\
    ((returncode r <> 0 /\ res = Raise (SystemExit 1)) \/
     (returncode r = 0 /\ exists v, res = Ret v)).
Proof.
  intros Hb.
  destruct (decide (returncode r = 0)) as [Hr|Hr].
  - assert (Hquiet : forall (v : json) fs (l : list event),
      exists res msgs, (Ret v, {| files := fs; log := l |}) =
        (res, {| files := fs; log := l ++ map Printed msgs |}) /\
        forallb lookup_message msgs = true /\
        ((returncode r <> 0 /\ res = Raise (SystemExit 1)) \/
         (returncode r = 0 /\ exists v, res = Ret v))).
    { intros v fs l. exists (Ret v), []. simpl. rewrite app_nil_r. eauto 6. }
    assert (Hwarn : forall e fs (l : list event),
      exists res msgs,
        (Ret JNull, {| files := fs; log := l ++ [Printed (CouldNotCheck e)] |}) =
        (res, {| files := fs; log := l ++ map Printed msgs |}) /\
        forallb lookup_message msgs = true /\
        ((returncode r <> 0 /\ res = Raise (SystemExit 1)) \/
         (returncode r = 0 /\ exists v, res = Ret v))).
    { intros e fs l. exists (Ret JNull), [CouldNotCheck e]. eauto 6. }
    assert (Hloop : forall jobs fs (l : list event),
      exists res msgs,
        match find_job jobs job_name {| files := fs; log := l |} with
        | (Ret a, st') => (Ret a, st')
        | (Raise e, st') =>
            (if is_Exception e
             then fun st1 => (Ret JNull, {| files := files st1;
                                            log := log st1 ++ [Printed (CouldNotCheck e)] |})
             else fun st1 => (Raise e, st1)) st'
        end = (res, {| files := fs; log := l ++ map Printed msgs |}) /\
        forallb lookup_message msgs = true /\
        ((returncode r <> 0 /\ res = Raise (SystemExit 1)) \/
         (returncode r = 0 /\ exists v, res = Ret v))).
    { intros jobs fs l.
      destruct (find_job_outcome jobs job_name) as (res & -> & [[v ->] | ->]).
      - apply Hquiet.
      - apply Hwarn. }
    unfold get_existing_job_id, try_except, mbind, M_bind.
    rewrite (run_command_ok w JobsList true st r fs' Hb Hr). unfold_monad.
    destruct (stdout r) as [|v|]; simpl.
    + apply Hquiet.
    + destruct v as [| | | | |kvs]; simpl; try apply Hwarn.
      destruct (assoc "jobs" kvs) as [[| | |s|l|kvs']|]; simpl;
        first [apply Hwarn | apply Hquiet | apply Hloop].
    + apply Hwarn.
  - rewrite (get_existing_job_id_exit w job_name st r fs' Hb Hr).
    exists (Raise (SystemExit 1)),
           [CommandFailed (cmdline JobsList); ErrorOutput (Some (stderr r))].
    simpl. rewrite <- !app_assoc. eauto.
Qed.

(** X4: whatever the tool answers, the lookup issues the listing and no
    other command, and it ends the process, with status 1, exactly when the
    listing command exits with a non-zero status; in every other case it
    returns, having printed at most a warning. *)
Theorem lookup_exits_iff_listing_fails
    (w : world) (job_name : json) (fs : gmap string doc) :
  issued (get_existing_job_id w job_name (start fs)) = [JobsList] /\
  (returncode (fst (bridge w (cmdline JobsList) fs)) <> 0 ->
   fst (get_existing_job_id w job_name (start fs)) = Raise (SystemExit 1)) /\
  (returncode (fst (bridge w (cmdline JobsList) fs)) = 0 ->
   exists v, fst (get_existing_job_id w job_name (start fs)) = Ret v).
Proof.
  destruct (bridge w (cmdline JobsList) fs) as [r fs'] eqn:Hb.
  destruct (get_existing_job_id_trace w job_name (start fs) r fs' Hb)
    as (res & msgs & -> & _ & Hres).
  unfold issued. cbn [fst snd log start app].
  split; [simpl; by rewrite commands_printed|].
  split; intros Hr; destruct Hres as [[Hr' ->] | [Hr' [v ->]]]; try done. eauto.
Qed.

Lemma find_job_malformed (pre post : list json) (bad job_name : json) (st : state) :
  forallb (other_job job_name) pre = true ->
  entry_view bad = None ->
  find_job (pre ++ bad :: post) job_name st = (Raise AttributeError, st).
Proof.
  intros Hpre Hbad. induction pre as [|j pre IH].
  - simpl app. by rewrite find_job_cons, Hbad.
  - simpl in Hpre. apply andb_prop in Hpre as [Hj Hpre].
    change ((j :: pre) ++ bad :: post) with (j :: (pre ++ bad :: post)).
    rewrite find_job_cons. unfold other_job in Hj.
    destruct (entry_view j) as [[nm i]|]; [|discriminate].
    apply negb_true_iff in Hj. rewrite Hj. by apply IH.
Qed.

(** X5: an entry of the listing that is not an object, or whose settings are
    not one, ends the search: when it comes before every entry of the
    definition's name, the lookup warns and answers [None], whatever follows
    it in the listing, and [manage_job] creates the job. *)
Theorem malformed_entry_hides_job
    (w : world) (config_path : string) (force : bool) (fs fs1 : gmap string doc)
    (kvs : list (string * json)) (job_name : json) (r : completed)
    (pre post : list json) (bad : json) :
  fs !! config_path = Some (Encodes (JObj kvs)) ->
  assoc "name" kvs = Some job_name ->
  truthy job_name = true ->
  bridge w (cmdline JobsList) fs = (r, fs1) ->
  returncode r = 0 ->
  listed (stdout r) = pre ++ bad :: post ->
  forallb (other_job job_name) pre = true ->
  entry_view bad = None ->
  get_existing_job_id w job_name (start fs) =
    (Ret JNull, {| files := fs1;
                   log := [Ran JobsList; Printed (CouldNotCheck AttributeError)] |}) /\
  issued (reconcile w config_path force fs) = [JobsList; JobsCreate config_path].
Proof.
  intros Hf Hn Ht Hb Hr Hl Hpre Hbad.
  assert (Hlookup : forall l,
    get_existing_job_id w job_name {| files := fs; log := l |} =
      (Ret JNull, {| files := fs1;
                     log := (l ++ [Ran JobsList]) ++ [Printed (CouldNotCheck AttributeError)] |})).
  { intros l. unfold get_existing_job_id, try_except, mbind, M_bind.
    rewrite (run_command_ok w JobsList true {| files := fs; log := l |} r fs1 Hb Hr).
    unfold listed in Hl. unfold_monad.
    destruct (stdout r) as [|[| | | | |kvs']|]; try by destruct pre.
    simpl. destruct (assoc "jobs" kvs') as [[| | | |l'|]|]; try by destruct pre.
    subst l'. by rewrite (find_job_malformed pre post bad job_name _ Hpre Hbad). }
  split; [apply (Hlookup [])|].
  unfold issued, reconcile.
  rewrite (manage_job_lookup w config_path force (start fs) kvs job_name Hf Hn Ht).
  cbn [start files log app]. rewrite Hlookup. cbn [truthy files log].
  rewrite create_job_commands. cbn [log]. by rewrite !commands_app.
Qed.

Lemma malformed_entry_hides_job_witness :
  get_existing_job_id (registry [JNull; entry "ingest-daily" (JInt 42)] (created 99))
      (JStr "ingest-daily") (start (config_files ingest_daily)) =
    (Ret JNull, {| files := config_files ingest_daily;
                   log := [Ran JobsList; Printed (CouldNotCheck AttributeError)] |}) /\
  issued (reconcile (registry [JNull; entry "ingest-daily" (JInt 42)] (created 99))
            "job.json" true (config_files ingest_daily)) = [JobsList; JobsCreate "job.json"].
Proof.
  apply (malformed_entry_hides_job
           (registry [JNull; entry "ingest-daily" (JInt 42)] (created 99))
           "job.json" true (config_files ingest_daily) (config_files ingest_daily)
           ingest_daily (JStr "ingest-daily")
           (listing_of [JNull; entry "ingest-daily" (JInt 42)])
           [] [entry "ingest-daily" (JInt 42)] JNull); reflexivity.
Defined.

(** ** Creating, in general *)

(** The four ways [create_job] ends. *)
Lemma create_job_trace
    (w : world) (config_path : string) (st : state) (r : completed) (fs' : gmap string doc) :
  bridge w (cmdline (JobsCreate config_path)) (files st) = (r, fs') ->
  exists res msgs,
    create_job w config_path st =
      (res, {| files := fs';
               log := ((log st ++ [Printed CreatingJob]) ++ [Ran (JobsCreate config_path)])
                      ++ map Printed msgs |}) /\
    ((returncode r <> 0 /\ res = Raise (SystemExit 1) /\
      msgs = [CommandFailed (cmdline (JobsCreate config_path)); ErrorOutput (Some (stderr r))]) \/
     (returncode r = 0 /\ decodes (stdout r) = false /\ res = Ret JNull /\ msgs = [JobCreated]) \/
     (returncode r = 0 /\ exists out, stdout r = Encodes (JObj out) /\
        res = Ret (default JNull (assoc "job_id" out)) /\
        msgs = [JobCreatedId (default JNull (assoc "job_id" out))]) \/
     (returncode r = 0 /\ exists v, stdout r = Encodes v /\ is_object v = false /\
        res = Raise AttributeError /\ msgs = [])).
Proof.
  intros Hb. unfold create_job. unfold_monad. cbn [files log].
  destruct (decide (returncode r = 0)) as [Hr|Hr].
  - rewrite (run_command_ok w (JobsCreate config_path) true
               {| files := files st |} r fs' Hb Hr). cbn [files log].
    destruct (stdout r) as [|v|] eqn:Hout.
    + exists (Ret JNull), [JobCreated]. split; [done|]. right; left. done.
    + destruct v as [| | | | |out].
      1-5: eexists _, []; split;
        [simpl; by rewrite app_nil_r | do 3 right; split; [done|]; eexists; eauto].
      exists (Ret (default JNull (assoc "job_id" out))),
             [JobCreatedId (default JNull (assoc "job_id" out))].
      split; [by destruct (assoc "job_id" out)|].
      do 2 right; left. eauto.
    + exists (Ret JNull), [JobCreated]. split; [done|]. right; left. done.
  - rewrite (run_command_failed w (JobsCreate config_path) true
               {| files := files st |} r fs' Hb Hr). cbn [files log].
    eexists _, _. split; [|left; eauto].
    simpl. by rewrite <- !app_assoc.
Qed.

(** With no job of that name listed, [manage_job] is the lookup followed by
    [create_job]. *)
Lemma manage_job_absent_run
    (w : world) (config_path : string) (force : bool) (fs fs1 : gmap string doc)
    (kvs : list (string * json)) (job_name : json) (r : completed) :
  fs !! config_path = Some (Encodes (JObj kvs)) ->
  assoc "name" kvs = Some job_name ->
  truthy job_name = true ->
  bridge w (cmdline JobsList) fs = (r, fs1) ->
  returncode r = 0 ->
  forallb (fun j => negb (named job_name j)) (listed (stdout r)) = true ->
  exists l,
    manage_job w config_path force (start fs) =
      create_job w config_path {| files := fs1; log := l |} /\
    commands l = [JobsList] /\
    existsb is_created_line
            (printed l) = false.
Proof.
  intros Hf Hn Ht Hb Hr Hl.
  rewrite (manage_job_lookup w config_path force (start fs) kvs job_name Hf Hn Ht).
  cbn [start files log app].
  destruct (get_existing_job_id_absent w job_name
              {| files := fs;
                 log := [Printed (LoadedConfig config_path); Printed (ManagingJob job_name)] |}
              r fs1 Hb Hr Hl) as (warnings & -> & Hw).
  cbn [truthy files log]. eexists. split; [reflexivity|].
  rewrite !commands_app, !printed_app. simpl.
  rewrite commands_printed, printed_printed.
  destruct Hw as [-> | [e ->]]; done.
Qed.

(** X6: on a registry without a job of that name, when the create command
    succeeds and answers with a JSON object, [manage_job] returns the
    identifier the tool reports under [job_id] ([None] when the object has no
    such key), for either setting of [force_update]. *)
Theorem created_identifier_is_reported
    (w : world) (config_path : string) (force : bool) (fs fs1 fs2 : gmap string doc)
    (kvs out : list (string * json)) (job_name : json) (r r2 : completed) :
  fs !! config_path = Some (Encodes (JObj kvs)) ->
  assoc "name" kvs = Some job_name ->
  truthy job_name = true ->
  bridge w (cmdline JobsList) fs = (r, fs1) ->
  returncode r = 0 ->
  forallb (fun j => negb (named job_name j)) (listed (stdout r)) = true ->
  bridge w (cmdline (JobsCreate config_path)) fs1 = (r2, fs2) ->
  returncode r2 = 0 ->
  stdout r2 = Encodes (JObj out) ->
  fst (reconcile w config_path force fs) = Ret (default JNull (assoc "job_id" out)) /\
  last (shown (reconcile w config_path force fs))
    = Some (JobCreatedId (default JNull (assoc "job_id" out))).
Proof.
  intros Hf Hn Ht Hb Hr Hl Hb2 Hr2 Hout. unfold shown, reconcile.
  destruct (manage_job_absent_run w config_path force fs fs1 kvs job_name r
              Hf Hn Ht Hb Hr Hl) as (l & -> & _ & _).
  destruct (create_job_trace w config_path {| files := fs1; log := l |} r2 fs2 Hb2)
    as (res & msgs & -> & Hcases).
  destruct Hcases as [(Hr' & _) | [(_ & Hd & _) | [(_ & out' & Hout' & -> & ->) |
                      (_ & v & Hv & Ho & _)]]].
  - done.
  - by rewrite Hout in Hd.
  - rewrite Hout in Hout'. injection Hout' as <-.
    split; [done|]. cbn [snd log]. rewrite printed_app, printed_printed.
    by rewrite last_snoc.
  - rewrite Hout in Hv. injection Hv as <-. discriminate.
Qed.

Lemma created_identifier_is_reported_witness :
  fst (reconcile (registry [entry "etl-hourly" (JInt 7)] (created 99)) "job.json" false
         (config_files ingest_daily)) = Ret (JInt 99) /\
  last (shown (reconcile (registry [entry "etl-hourly" (JInt 7)] (created 99)) "job.json" false
                 (config_files ingest_daily))) = Some (JobCreatedId (JInt 99)).
Proof.
  apply (created_identifier_is_reported
           (registry [entry "etl-hourly" (JInt 7)] (created 99)) "job.json" false
           (config_files ingest_daily) (config_files ingest_daily) (config_files ingest_daily)
           ingest_daily [("job_id", JInt 99)] (JStr "ingest-daily")
           (listing_of [entry "etl-hourly" (JInt 7)]) (created 99)); reflexivity.
Defined.

(** X7: a create command that exits with a non-zero status is fatal: the
    process is ended with status 1 after the two lines that report the
    command and its captured error output, and no success line is printed. *)
Theorem failed_create_is_fatal
    (w : world) (config_path : string) (force : bool) (fs fs1 fs2 : gmap string doc)
    (kvs : list (string * json)) (job_name : json) (r r2 : completed) :
  fs !! config_path = Some (Encodes (JObj kvs)) ->
  assoc "name" kvs = Some job_name ->
  truthy job_name = true ->
  bridge w (cmdline JobsList) fs = (r, fs1) ->
  returncode r = 0 ->
  forallb (fun j => negb (named job_name j)) (listed (stdout r)) = true ->
  bridge w (cmdline (JobsCreate config_path)) fs1 = (r2, fs2) ->
  returncode r2 <> 0 ->
  fst (reconcile w config_path force fs) = Raise (SystemExit 1) /\
  existsb is_created_line
          (shown (reconcile w config_path force fs)) = false /\
  exists before,
    shown (reconcile w config_path force fs) =
      before ++ [CreatingJob; CommandFailed (cmdline (JobsCreate config_path));
                 ErrorOutput (Some (stderr r2))].
Proof.
  intros Hf Hn Ht Hb Hr Hl Hb2 Hr2. unfold shown, reconcile.
  destruct (manage_job_absent_run w config_path force fs fs1 kvs job_name r
              Hf Hn Ht Hb Hr Hl) as (l & -> & _ & Hquiet).
  destruct (create_job_trace w config_path {| files := fs1; log := l |} r2 fs2 Hb2)
    as (res & msgs & -> & Hcases).
  destruct Hcases as [(_ & -> & ->) | [(Hr' & _) | [(Hr' & _) | (Hr' & _)]]]; try done.
  cbn [fst snd log]. rewrite !printed_app. simpl.
  split; [done|]. split.
  - rewrite !existsb_app, Hquiet. done.
  - exists (printed l). by rewrite <- !app_assoc.
Qed.

Lemma failed_create_is_fatal_witness :
  fst (reconcile (registry [] (failed 1)) "job.json" false (config_files ingest_daily))
    = Raise (SystemExit 1) /\
  existsb is_created_line
          (shown (reconcile (registry [] (failed 1)) "job.json" false
                    (config_files ingest_daily))) = false /\
  exists before,
    shown (reconcile (registry [] (failed 1)) "job.json" false (config_files ingest_daily)) =
      before ++ [CreatingJob; CommandFailed (cmdline (JobsCreate "job.json"));
                 ErrorOutput (Some (stderr (failed 1)))].
Proof.
  apply (failed_create_is_fatal (registry [] (failed 1)) "job.json" false
           (config_files ingest_daily) (config_files ingest_daily) (config_files ingest_daily)
           ingest_daily (JStr "ingest-daily") (listing_of []) (failed 1));
    [reflexivity .. | discriminate].
Defined.

(** X8: a create command that succeeds with output that is JSON but not an
    object is not treated like unparseable output: [result.get] raises an
    [AttributeError] that the [except json.JSONDecodeError] clause does not
    catch, after the job was created and before any success line. *)
Theorem non_object_create_output_crashes
    (w : world) (config_path : string) (force : bool) (fs fs1 fs2 : gmap string doc)
    (kvs : list (string * json)) (job_name v : json) (r r2 : completed) :
  fs !! config_path = Some (Encodes (JObj kvs)) ->
  assoc "name" kvs = Some job_name ->
  truthy job_name = true ->
  bridge w (cmdline JobsList) fs = (r, fs1) ->
  returncode r = 0 ->
  forallb (fun j => negb (named job_name j)) (listed (stdout r)) = true ->
  bridge w (cmdline (JobsCreate config_path)) fs1 = (r2, fs2) ->
  returncode r2 = 0 ->
  stdout r2 = Encodes v ->
  is_object v = false ->
  fst (reconcile w config_path force fs) = Raise AttributeError /\
  issued (reconcile w config_path force fs) = [JobsList; JobsCreate config_path] /\
  existsb is_created_line
          (shown (reconcile w config_path force fs)) = false.
Proof.
  intros Hf Hn Ht Hb Hr Hl Hb2 Hr2 Hout Hv. unfold shown, issued, reconcile.
  destruct (manage_job_absent_run w config_path force fs fs1 kvs job_name r
              Hf Hn Ht Hb Hr Hl) as (l & -> & Hcmds & Hquiet).
  destruct (create_job_trace w config_path {| files := fs1; log := l |} r2 fs2 Hb2)
    as (res & msgs & -> & Hcases).
  destruct Hcases as [(Hr' & _) | [(_ & Hd & _) | [(_ & out' & Hout' & _) |
                      (_ & v' & _ & _ & -> & ->)]]].
  - done.
  - by rewrite Hout in Hd.
  - rewrite Hout in Hout'. injection Hout' as ->. discriminate.
  - cbn [fst snd log]. rewrite !printed_app, !commands_app, Hcmds. simpl.
    rewrite !app_nil_r. split; [done|]. split; [done|].
    by rewrite existsb_app, Hquiet.
Qed.

Lemma non_object_create_output_crashes_witness :
  fst (reconcile (registry [] (ok (Encodes (JList [JInt 99])))) "job.json" false
         (config_files ingest_daily)) = Raise AttributeError /\
  issued (reconcile (registry [] (ok (Encodes (JList [JInt 99])))) "job.json" false
            (config_files ingest_daily)) = [JobsList; JobsCreate "job.json"] /\
  existsb is_created_line
          (shown (reconcile (registry [] (ok (Encodes (JList [JInt 99])))) "job.json" false
                    (config_files ingest_daily))) = false.
Proof.
  apply (non_object_create_output_crashes
           (registry [] (ok (Encodes (JList [JInt 99])))) "job.json" false
           (config_files ingest_daily) (config_files ingest_daily) (config_files ingest_daily)
           ingest_daily (JStr "ingest-daily") (JList [JInt 99])
           (listing_of []) (ok (Encodes (JList [JInt 99])))); reflexivity.
Defined.

(** ** Updating, in general *)

Lemma update_job_trace
    (w : world) (job_id cfg : json) (st : state) (r : completed) (fs' : gmap string doc) :
  bridge w (cmdline (JobsReset job_id temp_file))
         (<[temp_file := Encodes cfg]> (files st)) = (r, fs') ->
  exists res msgs,
    update_job w job_id cfg st =
      (res, {| files := delete temp_file fs';
               log := ((log st ++ [Printed (UpdatingJob job_id)])
                       ++ [Ran (JobsReset job_id temp_file)]) ++ map Printed msgs |}) /\
    ((returncode r = 0 /\ res = Ret job_id /\ msgs = [JobUpdated job_id]) \/
     (returncode r <> 0 /\ res = Raise (SystemExit 1) /\
      msgs = [CommandFailed (cmdline (JobsReset job_id temp_file)); ErrorOutput None])).
Proof.
  intros Hb. unfold update_job. unfold_monad. simpl.
  assert (Hdel : (if bool_decide (is_Some (fs' !! temp_file))
                  then delete temp_file fs' else fs') = delete temp_file fs').
  { case_bool_decide as Hs; [done|].
    symmetry. apply delete_id. by apply eq_None_not_Some. }
  destruct (decide (returncode r = 0)) as [Hr|Hr].
  - pose proof (run_command_ok w (JobsReset job_id temp_file) false
      {| files := <[temp_file := Encodes cfg]> (files st);
         log := log st ++ [Printed (UpdatingJob job_id)] |} r fs' Hb Hr) as ->.
    simpl. exists (Ret job_id), [JobUpdated job_id].
    split; [|by left]. rewrite <- Hdel at 1. by case_bool_decide.
  - pose proof (run_command_failed w (JobsReset job_id temp_file) false
      {| files := <[temp_file := Encodes cfg]> (files st);
         log := log st ++ [Printed (UpdatingJob job_id)] |} r fs' Hb Hr) as ->.
    simpl.
    exists (Raise (SystemExit 1)),
           [CommandFailed (cmdline (JobsReset job_id temp_file)); ErrorOutput None].
    split; [|by right]. rewrite <- Hdel at 1.
    case_bool_decide; simpl; by rewrite <- !app_assoc.
Qed.

(** X9: the scratch file has a fixed name in the working directory.  A
    forced update therefore removes whatever file has that name: a
    configuration that is itself [temp_job_config.json] is read, rewritten,
    and gone when [manage_job] is done, whether the update succeeds or not. *)
Theorem forced_update_removes_config_named_like_scratch
    (w : world) (fs fs1 : gmap string doc)
    (kvs : list (string * json)) (job_name : json) (r : completed)
    (pre post : list json) (e name job_id : json) :
  fs !! temp_file = Some (Encodes (JObj kvs)) ->
  assoc "name" kvs = Some job_name ->
  truthy job_name = true ->
  bridge w (cmdline JobsList) fs = (r, fs1) ->
  returncode r = 0 ->
  listed (stdout r) = pre ++ e :: post ->
  forallb (other_job job_name) pre = true ->
  entry_view e = Some (name, job_id) ->
  py_eq name job_name = true ->
  truthy job_id = true ->
  files (snd (reconcile w temp_file true fs)) !! temp_file = None /\
  files (snd (reconcile w temp_file true fs)) =
    delete temp_file (snd (bridge w (cmdline (JobsReset job_id temp_file))
                                  (<[temp_file := Encodes (JObj kvs)]> fs1))).
Proof.
  intros Hf Hn Ht Hb Hr Hl Hpre He Hname Hid.
  assert (files (snd (reconcile w temp_file true fs)) =
    delete temp_file (snd (bridge w (cmdline (JobsReset job_id temp_file))
                                  (<[temp_file := Encodes (JObj kvs)]> fs1)))) as H.
  { unfold reconcile.
    rewrite (manage_job_lookup w temp_file true (start fs) kvs job_name Hf Hn Ht).
    cbn [start files log app].
    rewrite (get_existing_job_id_found w job_name {| files := fs |} r fs1 pre e post
               name job_id Hb Hr Hl Hpre He Hname).
    rewrite Hid. cbn [files log].
    destruct (bridge w (cmdline (JobsReset job_id temp_file))
                (<[temp_file := Encodes (JObj kvs)]> fs1)) as [r2 fs2] eqn:Hb2.
    by destruct (update_job_trace w job_id (JObj kvs)
                   {| files := fs1;
                      log := ([Printed (LoadedConfig temp_file); Printed (ManagingJob job_name)]
                              ++ [Ran JobsList]) ++ [Printed (AlreadyExists job_id)] |}
                   r2 fs2 Hb2) as (res & msgs & -> & _). }
  split; [|done]. rewrite H. apply lookup_delete_eq.
Qed.

Lemma forced_update_removes_config_named_like_scratch_witness :
  files (snd (reconcile (registry two_jobs (created 99)) temp_file true
                {[ temp_file := Encodes (JObj ingest_daily) ]})) !! temp_file = None /\
  files (snd (reconcile (registry two_jobs (created 99)) temp_file true
                {[ temp_file := Encodes (JObj ingest_daily) ]})) =
    delete temp_file
      (snd (bridge (registry two_jobs (created 99)) (cmdline (JobsReset (JInt 42) temp_file))
              (<[temp_file := Encodes (JObj ingest_daily)]>
                 {[ temp_file := Encodes (JObj ingest_daily) ]}))).
Proof.
  apply (forced_update_removes_config_named_like_scratch
           (registry two_jobs (created 99))
           {[ temp_file := Encodes (JObj ingest_daily) ]}
           {[ temp_file := Encodes (JObj ingest_daily) ]}
           ingest_daily (JStr "ingest-daily") (listing_of two_jobs)
           [entry "etl-hourly" (JInt 7)] [] (entry "ingest-daily" (JInt 42))
           (JStr "ingest-daily") (JInt 42)); reflexivity.
Defined.

(** ** Every run of [manage_job] *)

Lemma lookup_message_manage (msgs : list message) :
  forallb lookup_message msgs = true -> forallb manage_message msgs = true.
Proof.
  induction msgs as [|m msgs IH]; [done|]. simpl. intros H.
  apply andb_prop in H as [Hm H]. rewrite (IH H). by destruct m.
Qed.

(** What [manage_job] can do, in every world and from every state: the
    commands it issues, the lines it prints, and how it ends. *)
Lemma manage_job_trace (w : world) (config_path : string) (force : bool) (st : state) :
  exists res fs' evs,
    manage_job w config_path force st = (res, {| files := fs'; log := log st ++ evs |}) /\
    forallb manage_message (printed evs) = true /\
    ((commands evs = [] /\ (res = Raise (SystemExit 1) \/ res = Raise AttributeError)) \/
     (commands evs = [JobsList] /\
      (res = Raise (SystemExit 1) \/
       (force = false /\ exists job_id, truthy job_id = true /\ res = Ret job_id))) \/
     (commands evs = [JobsList; JobsCreate config_path] /\
      ((exists v, res = Ret v) \/ res = Raise (SystemExit 1) \/ res = Raise AttributeError)) \/
     (force = true /\ exists job_id, truthy job_id = true /\
      commands evs = [JobsList; JobsReset job_id temp_file] /\
      (res = Ret job_id \/ res = Raise (SystemExit 1)))).
Proof.
  destruct (files st !! config_path) as [d|] eqn:Hf.
  2: { rewrite (manage_job_not_loaded w config_path force st _ _
                  (load_job_config_missing config_path st Hf)).
       eexists _, _, _. split; [reflexivity|]. split; [done|]. left. auto. }
  destruct (decide (decodes d = false)) as [Hd|Hd].
  { rewrite (manage_job_not_loaded w config_path force st _ _
               (load_job_config_undecodable config_path d st Hf Hd)).
    eexists _, _, _. split; [reflexivity|]. split; [done|]. left. auto. }
  destruct d as [|v|]; try done. clear Hd.
  destruct (is_object v) eqn:Hv.
  2: { rewrite (manage_job_non_object w config_path force st v Hf Hv).
       eexists _, _, _. split; [reflexivity|]. split; [done|]. left. auto. }
  destruct v as [| | | | |kvs]; try discriminate. clear Hv.
  destruct (truthy (default JNull (assoc "name" kvs))) eqn:Hname.
  2: { rewrite (manage_job_nameless w config_path force st kvs Hf Hname).
       eexists _, _, _. split; [by rewrite <- app_assoc|]. split; [done|]. left. auto. }
  destruct (assoc "name" kvs) as [job_name|] eqn:Hn; [|discriminate].
  simpl in Hname.
  rewrite (manage_job_lookup w config_path force st kvs job_name Hf Hn Hname).
  destruct (bridge w (cmdline JobsList) (files st)) as [r fs1] eqn:Hb.
  destruct (get_existing_job_id_trace w job_name
              {| files := files st;
                 log := (log st ++ [Printed (LoadedConfig config_path)])
                        ++ [Printed (ManagingJob job_name)] |} r fs1 Hb)
    as (res & msgs & -> & Hmsgs & Hres).
  apply lookup_message_manage in Hmsgs. cbn [files log].
  destruct Hres as [[_ ->] | [_ [v ->]]].
  { eexists _, _, _. split; [by rewrite <- !app_assoc|].
    simpl. rewrite printed_printed, commands_printed. split; [done|].
    right; left. auto. }
  destruct (truthy v) eqn:Hv; cbn [files log].
  - destruct force.
    + destruct (bridge w (cmdline (JobsReset v temp_file))
                  (<[temp_file := Encodes (JObj kvs)]> fs1)) as [r2 fs2] eqn:Hb2.
      destruct (update_job_trace w v (JObj kvs)
                  {| files := fs1;
                     log := (((log st ++ [Printed (LoadedConfig config_path)])
                              ++ [Printed (ManagingJob job_name)]) ++ [Ran JobsList]
                             ++ map Printed msgs) ++ [Printed (AlreadyExists v)] |}
                  r2 fs2) as (res & msgs2 & Hup & Hcases); [done|].
      cbn [files log] in Hup. rewrite <- !app_assoc in Hup.
      rewrite <- !app_assoc. rewrite Hup.
      eexists _, _, _. split; [reflexivity|].
      simpl. rewrite !printed_app, !commands_app, !printed_printed, !commands_printed.
      simpl. rewrite printed_printed, commands_printed.
      split.
      * rewrite forallb_app, Hmsgs. simpl.
        by destruct Hcases as [(_ & _ & ->) | (_ & _ & ->)].
      * do 3 right. split; [done|]. exists v. split; [done|]. split; [done|].
        destruct Hcases as [(_ & -> & _) | (_ & -> & _)]; auto.
    + eexists _, _, _. split; [by rewrite <- !app_assoc|].
      simpl. rewrite !printed_app, !commands_app, !printed_printed, !commands_printed.
      simpl. split.
      * by rewrite forallb_app, Hmsgs.
      * right; left. split; [done|]. right. eauto.
  - destruct (bridge w (cmdline (JobsCreate config_path)) fs1) as [r2 fs2] eqn:Hb2.
    destruct (create_job_trace w config_path
                {| files := fs1;
                   log := (((log st ++ [Printed (LoadedConfig config_path)])
                            ++ [Printed (ManagingJob job_name)]) ++ [Ran JobsList]
                           ++ map Printed msgs) ++ [Printed DoesNotExist] |}
                r2 fs2) as (res & msgs2 & Hcr & Hcases); [done|].
    cbn [files log] in Hcr. rewrite <- !app_assoc in Hcr.
    rewrite <- !app_assoc. rewrite Hcr.
    eexists _, _, _. split; [reflexivity|].
    simpl. rewrite !printed_app, !commands_app, !printed_printed, !commands_printed.
    simpl. rewrite printed_printed, commands_printed.
    split.
    + rewrite forallb_app, Hmsgs. simpl.
      by destruct Hcases as [(_ & _ & ->) | [(_ & _ & _ & ->) | [(_ & out & _ & _ & ->) |
                             (_ & v' & _ & _ & _ & ->)]]].
    + do 2 right; left. split; [done|].
      destruct Hcases as [(_ & -> & _) | [(_ & _ & -> & _) | [(_ & out & _ & -> & _) |
                          (_ & v' & _ & _ & -> & _)]]]; eauto.
Qed.

(** X10: in every world and for every configuration, [manage_job] issues
    nothing, or the listing alone, or the listing and then one create, or
    (only with [force_update]) the listing and then one update of a truthy
    identifier: never two mutations, never a mutation before the listing,
    never a run. *)
Theorem reconcile_issues_at_most_one_mutation
    (w : world) (config_path : string) (force : bool) (fs : gmap string doc) :
  issued (reconcile w config_path force fs) = [] \/
  issued (reconcile w config_path force fs) = [JobsList] \/
  issued (reconcile w config_path force fs) = [JobsList; JobsCreate config_path] \/
  (force = true /\ exists job_id, truthy job_id = true /\
   issued (reconcile w config_path force fs) = [JobsList; JobsReset job_id temp_file]).
Proof.
  unfold issued, reconcile.
  destruct (manage_job_trace w config_path force (start fs))
    as (res & fs' & evs & -> & _ & Hshape).
  cbn [snd log start app].
  destruct Hshape as [[-> _] | [[-> _] | [[-> _] | (Hf & id & Hid & -> & _)]]]; eauto 8.
Qed.

(** X11: when [manage_job] returns a falsy identifier ([None], 0, an empty
    string), it has issued a create: the skip and update paths only return
    truthy identifiers. *)
Theorem falsy_result_comes_from_create
    (w : world) (config_path : string) (force : bool) (fs : gmap string doc) (v : json) :
  fst (reconcile w config_path force fs) = Ret v ->
  truthy v = false ->
  issued (reconcile w config_path force fs) = [JobsList; JobsCreate config_path].
Proof.
  unfold issued, reconcile.
  destruct (manage_job_trace w config_path force (start fs))
    as (res & fs' & evs & -> & _ & Hshape).
  cbn [fst snd log start app]. intros -> Hv.
  destruct Hshape as [[_ [?|?]] | [[_ [?|(_ & id & Hid & [= ->])]] | [[-> _] |
                      (_ & id & Hid & _ & [[= ->]|?])]]]; try done; congruence.
Qed.

Lemma falsy_result_comes_from_create_witness :
  issued (reconcile chatty "job.json" true (config_files ingest_daily))
    = [JobsList; JobsCreate "job.json"].
Proof.
  apply (falsy_result_comes_from_create chatty "job.json" true
           (config_files ingest_daily) JNull); reflexivity.
Defined.

(** ** Every run of [main] *)

Lemma configure_api_trace (w : world) (st : state) :
  exists msgs,
    configure_api w st =
      (Ret tt,
       {| files := snd (bridge w (cmdline JobsConfigure) (files st));
          log := log st ++ Printed ConfiguringApi :: Ran JobsConfigure :: map Printed msgs |}) /\
    ((returncode (fst (bridge w (cmdline JobsConfigure) (files st))) = 0 /\
      msgs = [ApiConfigured; Rule; Title; Rule]) \/
     (returncode (fst (bridge w (cmdline JobsConfigure) (files st))) <> 0 /\
      msgs = [CommandFailed (cmdline JobsConfigure); ErrorOutput None; CouldNotConfigure;
              Rule; Title; Rule])).
Proof.
  destruct (bridge w (cmdline JobsConfigure) (files st)) as [r fs'] eqn:Hb.
  unfold configure_api. unfold_monad. cbn [files log fst snd].
  destruct (decide (returncode r = 0)) as [Hr|Hr].
  - pose proof (run_command_ok w JobsConfigure false
      {| files := files st; log := log st ++ [Printed ConfiguringApi] |} r fs' Hb Hr) as ->.
    simpl. exists [ApiConfigured; Rule; Title; Rule].
    rewrite <- !app_assoc. simpl. auto.
  - pose proof (run_command_failed w JobsConfigure false
      {| files := files st; log := log st ++ [Printed ConfiguringApi] |} r fs' Hb Hr) as ->.
    simpl.
    exists [CommandFailed (cmdline JobsConfigure); ErrorOutput None; CouldNotConfigure;
            Rule; Title; Rule].
    rewrite <- !app_assoc. simpl. auto.
Qed.

(** What follows [manage_job]: at most the run command, asked for and with a
    truthy identifier, and the success line exactly when the end is
    reached. *)
Lemma report_trace (w : world) (a : args) (job_id : json) (st : state) :
  exists res fs' evs,
    report w a job_id st = (res, {| files := fs'; log := log st ++ evs |}) /\
    (commands evs = [] \/
     (run a = true /\ truthy job_id = true /\ commands evs = [JobsRunNow job_id])) /\
    (res = Ret tt \/ res = Raise (SystemExit 1) \/ res = Raise AttributeError) /\
    existsb is_completed_line (printed evs) = returned res.
Proof.
  unfold report. set (u := get_job_url w job_id).
  destruct (run a && truthy job_id) eqn:Hrun.
  - apply andb_prop in Hrun as [Ha Hid].
    destruct (bridge w (cmdline (JobsRunNow job_id)) (files st)) as [r fs'] eqn:Hb.
    destruct (decide (returncode r = 0)) as [Hr|Hr].
    + destruct (stdout r) as [|[| | | | |out]|] eqn:Hout; destruct (url_truthy u);
        (eexists _, _, _; split;
         [unfold print, emit, mbind, M_bind, mret, M_ret; cbn [files log];
          rewrite (run_command_ok w (JobsRunNow job_id) true {| files := files st |}
                     r fs' Hb Hr);
          rewrite Hout; unfold_monad; cbn [files log];
          rewrite <- ?app_assoc; reflexivity
         | simpl; eauto 10]).
    + destruct (url_truthy u);
        (eexists _, _, _; split;
         [unfold print, emit, mbind, M_bind, mret, M_ret; cbn [files log];
          rewrite (run_command_failed w (JobsRunNow job_id) true {| files := files st |}
                     r fs' Hb Hr);
          cbn [files log]; rewrite <- ?app_assoc; reflexivity
         | simpl; eauto 10]).
  - destruct (url_truthy u); unfold_monad; cbn [files log];
      (eexists _, _, _; split; [rewrite <- ?app_assoc; reflexivity|]; simpl; eauto 10).
Qed.

Lemma manage_message_not_completed (msgs : list message) :
  forallb manage_message msgs = true -> existsb is_completed_line msgs = false.
Proof.
  induction msgs as [|m msgs IH]; [done|]. simpl. intros H.
  apply andb_prop in H as [Hm H]. rewrite (IH H). by destruct m.
Qed.

(** What [main] can do, in every world: how it ends, when it prints the
    success line, and the commands it issues, in order. *)
Lemma main_trace (w : world) (a : args) (fs : gmap string doc) :
  exists res st',
    main w a (start fs) = (res, st') /\
    (res = Ret tt \/ res = Raise (SystemExit 1) \/ res = Raise AttributeError) /\
    existsb is_completed_line (printed (log st')) = returned res /\
    exists cm cr,
      commands (log st') =
        (if env_set w "DATABRICKS_HOST" && env_set w "DATABRICKS_TOKEN"
         then [JobsConfigure] else []) ++ cm ++ cr /\
      (cm = [] \/ cm = [JobsList] \/ cm = [JobsList; JobsCreate (config a)] \/
       (force_update a = true /\ exists job_id, truthy job_id = true /\
        cm = [JobsList; JobsReset job_id temp_file])) /\
      (cr = [] \/
       (run a = true /\ exists job_id, truthy job_id = true /\ cr = [JobsRunNow job_id])).
Proof.
  destruct (env_set w "DATABRICKS_HOST" && env_set w "DATABRICKS_TOKEN") eqn:Hc.
  2: { rewrite (main_without_credentials w a (start fs) Hc).
       eexists _, _. split; [reflexivity|]. split; [auto|]. split; [done|].
       exists [], []. auto. }
  apply andb_prop in Hc as [Hh Ht].
  rewrite (main_with_credentials w a (start fs) Hh Ht).
  destruct (configure_api_trace w (start fs)) as (msgs0 & -> & Hm0).
  cbn [snd start files log app].
  assert (existsb is_completed_line msgs0 = false) as Hq0.
  { by destruct Hm0 as [[_ ->] | [_ ->]]. }
  destruct (manage_job_trace w (config a) (force_update a)
              {| files := snd (bridge w (cmdline JobsConfigure) fs);
                 log := Printed ConfiguringApi :: Ran JobsConfigure :: map Printed msgs0 |})
    as (res & fs1 & evs & -> & Hmm & Hshape).
  cbn [log]. apply manage_message_not_completed in Hmm.
  assert (Hcm : commands evs = [] \/ commands evs = [JobsList] \/
                commands evs = [JobsList; JobsCreate (config a)] \/
                (force_update a = true /\ exists job_id, truthy job_id = true /\
                 commands evs = [JobsList; JobsReset job_id temp_file])).
  { destruct Hshape as [[? _] | [[? _] | [[? _] | (? & id & ? & ? & _)]]]; eauto 8. }
  destruct res as [job_id|e].
  - destruct (report_trace w a job_id
                {| files := fs1;
                   log := (Printed ConfiguringApi :: Ran JobsConfigure :: map Printed msgs0)
                          ++ evs |})
      as (res2 & fs2 & evs2 & -> & Hcr & Hres & Hcomp).
    eexists _, _. split; [reflexivity|]. split; [done|]. cbn [log].
    split.
    + rewrite !printed_app. simpl. rewrite printed_printed.
      by rewrite !existsb_app, Hq0, Hmm, Hcomp.
    + exists (commands evs), (commands evs2).
      rewrite !commands_app. simpl. rewrite commands_printed.
      split; [done|]. split; [done|].
      destruct Hcr as [-> | (? & ? & ->)]; eauto 6.
  - eexists _, _. split; [reflexivity|]. cbn [log].
    split.
    { destruct Hshape as [[_ [?|?]] | [[_ [?|(_ & id & _ & ?)]] | [[_ [[v ?]|[?|?]]] |
                          (_ & id & _ & _ & [?|?])]]]; simplify_eq; auto. }
    split.
    + rewrite printed_app. simpl. rewrite printed_printed.
      by rewrite existsb_app, Hq0, Hmm.
    + exists (commands evs), [].
      rewrite commands_app. simpl. rewrite commands_printed, app_nil_r. auto.
Qed.

Lemma main_from_parsed (w : world) (a : args) (st : state) :
  main_from_command_line w (Parsed a) st = main w a st.
Proof.
  unfold main_from_command_line, parse_args.
  unfold mbind at 1. unfold M_bind at 1. reflexivity.
Qed.

(** X12: whatever the command line, the world and the files, the process
    ends with status 0, 1 or 2; status 2 is the usage error of argparse and
    nothing else, so once the command line is accepted every failure, a
    [sys.exit(1)] or an uncaught exception, ends with status 1. *)
Theorem exit_status_is_zero_one_or_two
    (w : world) (cl : command_line) (fs : gmap string doc) :
  (exit_status (fst (main_from_command_line w cl (start fs))) = 0 \/
   exit_status (fst (main_from_command_line w cl (start fs))) = 1 \/
   exit_status (fst (main_from_command_line w cl (start fs))) = 2) /\
  (exit_status (fst (main_from_command_line w cl (start fs))) = 2 <-> cl = UsageError).
Proof.
  destruct cl as [| |a].
  - split; [auto | done].
  - split; [auto | done].
  - rewrite main_from_parsed.
    destruct (main_trace w a fs) as (res & st' & -> & Hres & _).
    destruct Hres as [-> | [-> | ->]]; (split; [auto | done]).
Qed.

(** X13: the line that announces success is printed exactly when the
    process ends with status 0 on a command line that is not a request for
    help ([--help] ends with status 0 before the script prints anything). *)
Theorem success_line_iff_status_zero
    (w : world) (cl : command_line) (fs : gmap string doc) :
  existsb is_completed_line (shown (main_from_command_line w cl (start fs))) = true <->
  (exit_status (fst (main_from_command_line w cl (start fs))) = 0 /\ cl <> HelpRequest).
Proof.
  destruct cl as [| |a].
  - split; [done | by intros [? _]].
  - split; [done | by intros [_ ?]].
  - rewrite main_from_parsed. unfold shown.
    destruct (main_trace w a fs) as (res & st' & -> & Hres & Hcomp & _).
    cbn [fst snd]. rewrite Hcomp.
    destruct Hres as [-> | [-> | ->]]; simpl; split; try done; by intros [? _].
Qed.

(** X14: without [--run] no run is ever triggered, and with it at most one,
    as the last command and for a truthy identifier. *)
Theorem run_only_when_asked (w : world) (a : args) (fs : gmap string doc) :
  (run a = false -> issued_count is_run (main w a (start fs)) = 0%nat) /\
  (issued_count is_run (main w a (start fs)) = 0%nat \/
   exists job_id, truthy job_id = true /\
     issued_count is_run (main w a (start fs)) = 1%nat /\
     last (issued (main w a (start fs))) = Some (JobsRunNow job_id)).
Proof.
  unfold issued_count, issued, calls.
  destruct (main_trace w a fs) as (res & st' & -> & _ & _ & cm & cr & Hcmds & Hcm & Hcr).
  cbn [snd]. rewrite Hcmds. clear Hcmds.
  assert (List.filter is_run
            ((if env_set w "DATABRICKS_HOST" && env_set w "DATABRICKS_TOKEN"
              then [JobsConfigure] else []) ++ cm) = []) as Hpre.
  { rewrite List.filter_app.
    assert (List.filter is_run cm = []) as ->.
    { destruct Hcm as [-> | [-> | [-> | (_ & id & _ & ->)]]]; done. }
    by destruct (env_set w "DATABRICKS_HOST" && env_set w "DATABRICKS_TOKEN"). }
  rewrite app_assoc, List.filter_app, Hpre. simpl.
  destruct Hcr as [-> | (Hrun & id & Hid & ->)].
  - split; [done|]. by left.
  - split; [by rewrite Hrun|]. right. exists id. simpl.
    split; [done|]. split; [done|]. by rewrite last_snoc.
Qed.

(** X15: without [--force-update] the whole script never issues an update. *)
Theorem main_never_updates_unless_forced (w : world) (a : args) (fs : gmap string doc) :
  force_update a = false ->
  issued_count is_update (main w a (start fs)) = 0%nat.
Proof.
  intros Hforce. unfold issued_count, calls.
  destruct (main_trace w a fs) as (res & st' & -> & _ & _ & cm & cr & Hcmds & Hcm & Hcr).
  cbn [snd]. rewrite Hcmds, !List.filter_app, !List.length_app.
  assert (List.filter is_update cm = []) as ->.
  { destruct Hcm as [-> | [-> | [-> | (Hf & _)]]]; try done. congruence. }
  assert (List.filter is_update cr = []) as ->.
  { destruct Hcr as [-> | (_ & id & _ & ->)]; done. }
  by destruct (env_set w "DATABRICKS_HOST" && env_set w "DATABRICKS_TOKEN").
Qed.

Lemma main_never_updates_unless_forced_witness :
  issued_count is_update
    (main (registry two_jobs (created 99)) (Args "job.json" false true)
          (start (config_files ingest_daily))) = 0%nat.
Proof.
  apply (main_never_updates_unless_forced (registry two_jobs (created 99))
           (Args "job.json" false true) (config_files ingest_daily)).
  reflexivity.
Defined.

(** ** Credentials and the configuration step *)

(** X16: when either credential is unset or empty, the script stops at
    once: one line, status 1, no command issued, no file read or changed. *)
Theorem missing_credentials_stop_everything
    (w : world) (a : args) (fs : gmap string doc) (name : string) :
  name = "DATABRICKS_HOST" \/ name = "DATABRICKS_TOKEN" ->
  environ w !! name = None \/ environ w !! name = Some "" ->
  main w a (start fs) =
    (Raise (SystemExit 1), {| files := fs; log := [Printed CredentialsMissing] |}) /\
  exit_status (fst (main w a (start fs))) = 1 /\
  issued (main w a (start fs)) = [].
Proof.
  intros Hname Henv.
  assert (env_set w "DATABRICKS_HOST" && env_set w "DATABRICKS_TOKEN" = false) as Hc.
  { assert (env_set w name = false) as Hn.
    { unfold env_set. by destruct Henv as [-> | ->]. }
    destruct Hname as [-> | ->]; rewrite Hn; [done | apply andb_false_r]. }
  unfold issued. by rewrite (main_without_credentials w a (start fs) Hc).
Qed.

Lemma missing_credentials_stop_everything_witness :
  main no_token (Args "job.json" true true) (start (config_files ingest_daily)) =
    (Raise (SystemExit 1),
     {| files := config_files ingest_daily; log := [Printed CredentialsMissing] |}) /\
  exit_status (fst (main no_token (Args "job.json" true true)
                         (start (config_files ingest_daily)))) = 1 /\
  issued (main no_token (Args "job.json" true true) (start (config_files ingest_daily))) = [].
Proof.
  apply (missing_credentials_stop_everything no_token (Args "job.json" true true)
           (config_files ingest_daily) "DATABRICKS_TOKEN");
    [right; reflexivity | left; reflexivity].
Defined.

(** X17: a configuration step that fails is not fatal, although
    [run_command] leaves it through [sys.exit(1)]: the bare [except:] of
    [main] catches the exit, a warning follows the two lines of the failure,
    and [main] goes on with [manage_job] and the report as usual. *)
Theorem failed_configure_is_not_fatal
    (w : world) (a : args) (fs : gmap string doc) :
  env_set w "DATABRICKS_HOST" = true ->
  env_set w "DATABRICKS_TOKEN" = true ->
  returncode (fst (bridge w (cmdline JobsConfigure) fs)) <> 0 ->
  main w a (start fs) =
    match manage_job w (config a) (force_update a)
            {| files := snd (bridge w (cmdline JobsConfigure) fs);
               log := [Printed ConfiguringApi; Ran JobsConfigure;
                       Printed (CommandFailed (cmdline JobsConfigure));
                       Printed (ErrorOutput None);
                       Printed CouldNotConfigure;
                       Printed Rule; Printed Title; Printed Rule] |} with
    | (Ret job_id, st1) => report w a job_id st1
    | (Raise e, st1) => (Raise e, st1)
    end.
Proof.
  intros Hh Ht Hr.
  rewrite (main_with_credentials w a (start fs) Hh Ht).
  destruct (configure_api_trace w (start fs)) as (msgs & -> & [[Hr' _] | [_ ->]]).
  - done.
  - reflexivity.
Qed.

Lemma failed_configure_is_not_fatal_witness :
  main old_tool (Args "job.json" false false) (start (config_files ingest_daily)) =
    match manage_job old_tool "job.json" false
            {| files := config_files ingest_daily;
               log := [Printed ConfiguringApi; Ran JobsConfigure;
                       Printed (CommandFailed (cmdline JobsConfigure));
                       Printed (ErrorOutput None);
                       Printed CouldNotConfigure;
                       Printed Rule; Printed Title; Printed Rule] |} with
    | (Ret job_id, st1) => report old_tool (Args "job.json" false false) job_id st1
    | (Raise e, st1) => (Raise e, st1)
    end.
Proof.
  apply (failed_configure_is_not_fatal old_tool (Args "job.json" false false)
           (config_files ingest_daily)); [reflexivity | reflexivity | discriminate].
Defined.

(** ** Triggering a run *)

Section Run.

Variable w : world.

Lemma report_run_start
    (a : args) (host : string) (job_id : json) (st : state) :
  environ w !! "DATABRICKS_HOST" = Some host ->
  host <> "" ->
  truthy job_id = true ->
  run a = true ->
  report w a job_id st =
    (output ← run_command w (JobsRunNow job_id) true;
     try_except
       (result ← json_loads output;
        run_id ← py_get result "run_id" JNull;
        print (RunTriggeredId run_id);;
        print (RunUrl ((rstrip_slash host +:+ "/#job/" +:+ py_str job_id)
                       +:+ "/runs/" +:+ py_str run_id)))
       (fun e =>
          match e with
          | JSONDecodeError => print RunTriggered
          | _ => raise e
          end);;
     print RuleAfterBlankLine;; print Completed_ok;; print Rule)
      {| files := files st;
         log := (log st ++ [Printed (JobUrl (rstrip_slash host +:+ "/#job/" +:+ py_str job_id))])
                ++ [Printed TriggeringRun] |}.
Proof.
  intros Hh Hne Hid Hrun. unfold report.
  rewrite (get_job_url_truthy w host job_id Hh Hne Hid), Hrun, Hid.
  cbn [andb url_truthy default]. rewrite job_url_not_empty. cbn [negb].
  unfold print, emit, mbind, M_bind. cbn [files log].
  by destruct (run_command w (JobsRunNow job_id) true _) as [[o|e] st'].
Qed.

(** X18: a run command that exits with a non-zero status ends the process
    with status 1, after the job was managed and its address shown; the
    success line is not printed. *)
Theorem failed_run_is_fatal
    (a : args) (fs fs' : gmap string doc) (host : string) (job_id : json)
    (st : state) (r : completed) :
  environ w !! "DATABRICKS_HOST" = Some host ->
  host <> "" ->
  env_set w "DATABRICKS_TOKEN" = true ->
  manage_job w (config a) (force_update a) (snd (configure_api w (start fs)))
    = (Ret job_id, st) ->
  truthy job_id = true ->
  run a = true ->
  bridge w (cmdline (JobsRunNow job_id)) (files st) = (r, fs') ->
  returncode r <> 0 ->
  exit_status (fst (main w a (start fs))) = 1 /\
  shown (main w a (start fs)) =
    printed (log st) ++
    [JobUrl (rstrip_slash host +:+ "/#job/" +:+ py_str job_id);
     TriggeringRun;
     CommandFailed (cmdline (JobsRunNow job_id));
     ErrorOutput (Some (stderr r))].
Proof.
  intros Hh Hne Ht Hm Hid Hrun Hb Hr.
  assert (env_set w "DATABRICKS_HOST" = true) as Hset.
  { unfold env_set. rewrite Hh. apply String.eqb_neq in Hne. by rewrite Hne. }
  unfold shown. rewrite (main_with_credentials w a (start fs) Hset Ht), Hm.
  rewrite (report_run_start a host job_id st Hh Hne Hid Hrun).
  unfold mbind, M_bind.
  rewrite (run_command_failed w (JobsRunNow job_id) true {| files := files st |} r fs' Hb Hr).
  cbn [fst snd files log exit_status]. split; [done|].
  rewrite <- !app_assoc. rewrite printed_app. done.
Qed.

(** X19: a run command that succeeds with output that is not JSON counts as
    triggered: a line says so, no run address is shown, and the script ends
    with status 0. *)
Theorem unparsed_run_output_completes
    (a : args) (fs fs' : gmap string doc) (host : string) (job_id : json)
    (st : state) (r : completed) :
  environ w !! "DATABRICKS_HOST" = Some host ->
  host <> "" ->
  env_set w "DATABRICKS_TOKEN" = true ->
  manage_job w (config a) (force_update a) (snd (configure_api w (start fs)))
    = (Ret job_id, st) ->
  truthy job_id = true ->
  run a = true ->
  bridge w (cmdline (JobsRunNow job_id)) (files st) = (r, fs') ->
  returncode r = 0 ->
  decodes (stdout r) = false ->
  exit_status (fst (main w a (start fs))) = 0 /\
  shown (main w a (start fs)) =
    printed (log st) ++
    [JobUrl (rstrip_slash host +:+ "/#job/" +:+ py_str job_id);
     TriggeringRun; RunTriggered;
     RuleAfterBlankLine; Completed_ok; Rule].
Proof.
  intros Hh Hne Ht Hm Hid Hrun Hb Hr Hd.
  assert (env_set w "DATABRICKS_HOST" = true) as Hset.
  { unfold env_set. rewrite Hh. apply String.eqb_neq in Hne. by rewrite Hne. }
  unfold shown. rewrite (main_with_credentials w a (start fs) Hset Ht), Hm.
  rewrite (report_run_start a host job_id st Hh Hne Hid Hrun).
  unfold mbind, M_bind.
  rewrite (run_command_ok w (JobsRunNow job_id) true {| files := files st |} r fs' Hb Hr).
  unfold_monad. cbn [files log].
  destruct (stdout r) as [|v|]; try discriminate;
    (cbn [fst snd log exit_status files]; split; [done|];
     rewrite <- !app_assoc; by rewrite printed_app).
Qed.

(** X20: a run command that succeeds with output that is JSON but not an
    object is not covered by the [except json.JSONDecodeError] clause: the
    run was triggered, and the script ends in an [AttributeError], status 1,
    without any line about the run. *)
Theorem non_object_run_output_crashes
    (a : args) (fs fs' : gmap string doc) (host : string) (job_id v : json)
    (st : state) (r : completed) :
  environ w !! "DATABRICKS_HOST" = Some host ->
  host <> "" ->
  env_set w "DATABRICKS_TOKEN" = true ->
  manage_job w (config a) (force_update a) (snd (configure_api w (start fs)))
    = (Ret job_id, st) ->
  truthy job_id = true ->
  run a = true ->
  bridge w (cmdline (JobsRunNow job_id)) (files st) = (r, fs') ->
  returncode r = 0 ->
  stdout r = Encodes v ->
  is_object v = false ->
  fst (main w a (start fs)) = Raise AttributeError /\
  exit_status (fst (main w a (start fs))) = 1 /\
  issued (main w a (start fs)) = commands (log st) ++ [JobsRunNow job_id] /\
  shown (main w a (start fs)) =
    printed (log st) ++
    [JobUrl (rstrip_slash host +:+ "/#job/" +:+ py_str job_id); TriggeringRun].
Proof.
  intros Hh Hne Ht Hm Hid Hrun Hb Hr Hout Hv.
  assert (env_set w "DATABRICKS_HOST" = true) as Hset.
  { unfold env_set. rewrite Hh. apply String.eqb_neq in Hne. by rewrite Hne. }
  unfold shown, issued. rewrite (main_with_credentials w a (start fs) Hset Ht), Hm.
  rewrite (report_run_start a host job_id st Hh Hne Hid Hrun).
  unfold mbind, M_bind.
  rewrite (run_command_ok w (JobsRunNow job_id) true {| files := files st |} r fs' Hb Hr).
  rewrite Hout. unfold_monad. cbn [files log].
  destruct v; try discriminate;
    (cbn [fst snd log exit_status files]; split; [done|]; split; [done|];
     rewrite <- !app_assoc; by rewrite printed_app, commands_app).
Qed.

End Run.

Lemma failed_run_is_fatal_witness :
  exit_status (fst (main (runner (failed 1)) (Args "job.json" false true)
                         (start (config_files ingest_daily)))) = 1 /\
  shown (main (runner (failed 1)) (Args "job.json" false true)
              (start (config_files ingest_daily))) =
    [ConfiguringApi; ApiConfigured; Rule; Title; Rule;
     LoadedConfig "job.json"; ManagingJob (JStr "ingest-daily");
     AlreadyExists (JInt 42); SkippingUpdate;
     JobUrl "https://adb.example.net/#job/42";
     TriggeringRun;
     CommandFailed "databricks jobs run-now --job-id 42";
     ErrorOutput (Some "Error: connection refused")].
Proof.
  apply (failed_run_is_fatal (runner (failed 1)) (Args "job.json" false true)
           (config_files ingest_daily) (config_files ingest_daily)
           "https://adb.example.net" (JInt 42)
           (snd (manage_job (runner (failed 1)) "job.json" false
                   (snd (configure_api (runner (failed 1))
                           (start (config_files ingest_daily))))))
           (failed 1));
    [reflexivity | discriminate | reflexivity .. | discriminate].
Defined.

Lemma unparsed_run_output_completes_witness :
  exit_status (fst (main (runner (ok Malformed)) (Args "job.json" false true)
                         (start (config_files ingest_daily)))) = 0 /\
  shown (main (runner (ok Malformed)) (Args "job.json" false true)
              (start (config_files ingest_daily))) =
    [ConfiguringApi; ApiConfigured; Rule; Title; Rule;
     LoadedConfig "job.json"; ManagingJob (JStr "ingest-daily");
     AlreadyExists (JInt 42); SkippingUpdate;
     JobUrl "https://adb.example.net/#job/42";
     TriggeringRun; RunTriggered;
     RuleAfterBlankLine; Completed_ok; Rule].
Proof.
  apply (unparsed_run_output_completes (runner (ok Malformed)) (Args "job.json" false true)
           (config_files ingest_daily) (config_files ingest_daily)
           "https://adb.example.net" (JInt 42)
           (snd (manage_job (runner (ok Malformed)) "job.json" false
                   (snd (configure_api (runner (ok Malformed))
                           (start (config_files ingest_daily))))))
           (ok Malformed));
    [reflexivity | discriminate | reflexivity ..].
Defined.

Lemma non_object_run_output_crashes_witness :
  fst (main (runner (ok (Encodes (JInt 555)))) (Args "job.json" false true)
            (start (config_files ingest_daily))) = Raise AttributeError /\
  exit_status (fst (main (runner (ok (Encodes (JInt 555)))) (Args "job.json" false true)
                         (start (config_files ingest_daily)))) = 1 /\
  issued (main (runner (ok (Encodes (JInt 555)))) (Args "job.json" false true)
               (start (config_files ingest_daily))) =
    [JobsConfigure; JobsList; JobsRunNow (JInt 42)] /\
  shown (main (runner (ok (Encodes (JInt 555)))) (Args "job.json" false true)
              (start (config_files ingest_daily))) =
    [ConfiguringApi; ApiConfigured; Rule; Title; Rule;
     LoadedConfig "job.json"; ManagingJob (JStr "ingest-daily");
     AlreadyExists (JInt 42); SkippingUpdate;
     JobUrl "https://adb.example.net/#job/42"; TriggeringRun].
Proof.
  apply (non_object_run_output_crashes (runner (ok (Encodes (JInt 555))))
           (Args "job.json" false true)
           (config_files ingest_daily) (config_files ingest_daily)
           "https://adb.example.net" (JInt 42) (JInt 555)
           (snd (manage_job (runner (ok (Encodes (JInt 555)))) "job.json" false
                   (snd (configure_api (runner (ok (Encodes (JInt 555))))
                           (start (config_files ingest_daily))))))
           (ok (Encodes (JInt 555))));
    [reflexivity | discriminate | reflexivity ..].
Defined.

(** ** More on addresses, files and listings *)

Lemma rstrip_slash_snoc (host : string) :
  rstrip_slash (host +:+ "/") = rstrip_slash host.
Proof.
  induction host as [|c host IH]; [done|].
  change (String c host +:+ "/") with (String c (host +:+ "/")).
  cbn [rstrip_slash]. by rewrite IH.
Qed.

(** X21: a trailing slash on the host makes no difference to the address of
    a job. *)
Theorem job_url_ignores_trailing_slash
    (w1 w2 : world) (host : string) (job_id : json) :
  environ w1 !! "DATABRICKS_HOST" = Some host ->
  environ w2 !! "DATABRICKS_HOST" = Some (host +:+ "/") ->
  host <> "" ->
  get_job_url w1 job_id = get_job_url w2 job_id.
Proof.
  intros H1 H2 Hne. unfold get_job_url. rewrite H1, H2. cbn [default from_option id].
  rewrite rstrip_slash_snoc.
  apply String.eqb_neq in Hne. rewrite Hne.
  by destruct host.
Qed.

Lemma job_url_ignores_trailing_slash_witness :
  get_job_url (registry two_jobs (created 99)) (JInt 42) = get_job_url with_slash (JInt 42).
Proof.
  apply (job_url_ignores_trailing_slash (registry two_jobs (created 99)) with_slash
           "https://adb.example.net" (JInt 42)); [reflexivity | reflexivity | discriminate].
Defined.

(** X22: skipping an existing job writes nothing: the files are as the
    listing command left them, the scratch file is never written, and the
    lines shown are the four of the skip. *)
Theorem skip_writes_nothing
    (w : world) (config_path : string) (fs fs1 : gmap string doc)
    (kvs : list (string * json)) (job_name : json) (r : completed)
    (pre post : list json) (e name job_id : json) :
  fs !! config_path = Some (Encodes (JObj kvs)) ->
  assoc "name" kvs = Some job_name ->
  truthy job_name = true ->
  bridge w (cmdline JobsList) fs = (r, fs1) ->
  returncode r = 0 ->
  listed (stdout r) = pre ++ e :: post ->
  forallb (other_job job_name) pre = true ->
  entry_view e = Some (name, job_id) ->
  py_eq name job_name = true ->
  truthy job_id = true ->
  files (snd (reconcile w config_path false fs)) = fs1 /\
  shown (reconcile w config_path false fs) =
    [LoadedConfig config_path; ManagingJob job_name; AlreadyExists job_id; SkippingUpdate].
Proof.
  intros Hf Hn Ht Hb Hr Hl Hpre He Hname Hid.
  unfold shown, reconcile.
  rewrite (manage_job_lookup w config_path false (start fs) kvs job_name Hf Hn Ht).
  cbn [start files log app].
  rewrite (get_existing_job_id_found w job_name {| files := fs |} r fs1 pre e post
             name job_id Hb Hr Hl Hpre He Hname).
  by rewrite Hid.
Qed.

Lemma skip_writes_nothing_witness :
  files (snd (reconcile (registry two_jobs (created 99)) "job.json" false
                (config_files ingest_daily))) = config_files ingest_daily /\
  shown (reconcile (registry two_jobs (created 99)) "job.json" false
           (config_files ingest_daily)) =
    [LoadedConfig "job.json"; ManagingJob (JStr "ingest-daily");
     AlreadyExists (JInt 42); SkippingUpdate].
Proof.
  apply (skip_writes_nothing
           (registry two_jobs (created 99))
           "job.json" (config_files ingest_daily) (config_files ingest_daily)
           ingest_daily (JStr "ingest-daily") (listing_of two_jobs)
           [entry "etl-hourly" (JInt 7)] [] (entry "ingest-daily" (JInt 42))
           (JStr "ingest-daily") (JInt 42)); reflexivity.
Defined.

(** X23: a listing that succeeds with no output at all, or with a JSON
    object that has no [jobs] or an empty list of them, is an empty registry
    and not an error: the lookup answers [None] and prints no warning. *)
Theorem empty_listing_is_silent
    (w : world) (job_name : json) (st : state) (r : completed) (fs' : gmap string doc) :
  bridge w (cmdline JobsList) (files st) = (r, fs') ->
  returncode r = 0 ->
  stdout r = Blank \/
  (exists kvs, stdout r = Encodes (JObj kvs) /\
     (assoc "jobs" kvs = None \/ assoc "jobs" kvs = Some (JList []))) ->
  get_existing_job_id w job_name st =
    (Ret JNull, {| files := fs'; log := log st ++ [Ran JobsList] |}).
Proof.
  intros Hb Hr Hout.
  unfold get_existing_job_id, try_except, mbind, M_bind.
  rewrite (run_command_ok w JobsList true st r fs' Hb Hr). unfold_monad.
  destruct Hout as [Ho | (kvs & Ho & Hj)]; rewrite Ho; simpl; [reflexivity|].
  destruct Hj as [Hj | Hj]; by rewrite Hj.
Qed.

Lemma empty_listing_is_silent_witness :
  get_existing_job_id
    {| environ := credentials "https://adb.example.net";
       bridge := tool (ok Blank) (created 99) (ok Blank) (ok Blank) |}
    (JStr "ingest-daily") (start ∅) =
    (Ret JNull, {| files := ∅; log := [Ran JobsList] |}).
Proof.
  apply (empty_listing_is_silent
           {| environ := credentials "https://adb.example.net";
              bridge := tool (ok Blank) (created 99) (ok Blank) (ok Blank) |}
           (JStr "ingest-daily") (start ∅) (ok Blank) ∅);
    [reflexivity | reflexivity | left; reflexivity].
Defined.
